(** * nexus-upload-debs: a shallow embedding of [src/index.js]

    The action lists the components of a Nexus repository, compares every
    local [.deb] file with that inventory, deletes stale components, uploads
    what is missing and finally triggers the apt metadata rebuild task when a
    component was deleted.

    Conventions of the embedding.
    - JavaScript strings are [string]; a [Buffer] is a [list Byte.byte].
    - A value that may be [null] or [undefined] is an [option]; truthiness
      of such a string ([x || '-'], [if (x)]) is [truthy].
    - The registry is a deterministic function of the conversation so far
      ([server]); every axios call is appended to the [log] of the state.
    - The module-level variable [hasDeletedComponent] is a field of the
      state that is threaded through every asynchronous function.
    - [console.log] and friends are not modelled. *)

From Stdlib Require Import List String Ascii Bool ZArith Lia.
From Stdlib.Strings Require Import Byte.
Import ListNotations.
Open Scope string_scope.

Set Implicit Arguments.

(* ------------------------------------------------------------------ *)
(** ** Strings as JavaScript uses them *)

Module JsString.

(** [s.split(c)] for a one-character separator. *)
Fixpoint split (sep : ascii) (s : string) : list string :=
  match s with
  | EmptyString => [EmptyString]
  | String c rest =>
      if Ascii.eqb c sep then EmptyString :: split sep rest
      else match split sep rest with
           | [] => [String c EmptyString]
           | part :: parts => String c part :: parts
           end
  end.

(** [parts.join(sep)]. *)
Fixpoint join (sep : string) (parts : list string) : string :=
  match parts with
  | [] => EmptyString
  | [p] => p
  | p :: rest => p ++ sep ++ join sep rest
  end.

(** [arr.slice(from, to)] for indices inside [0 .. length]. *)
Definition slice {A} (from to : nat) (l : list A) : list A :=
  firstn (to - from) (skipn from l).

(** [c.toLowerCase()] on the ASCII letters. *)
Definition lower_ascii (c : ascii) : ascii :=
  let n := nat_of_ascii c in
  if andb (Nat.leb 65 n) (Nat.leb n 90) then ascii_of_nat (n + 32) else c.

Fixpoint toLowerCase (s : string) : string :=
  match s with
  | EmptyString => EmptyString
  | String c rest => String (lower_ascii c) (toLowerCase rest)
  end.

(** [s.endsWith(suffix)]. *)
Definition endsWith (s suffix : string) : bool :=
  let n := String.length s in
  let k := String.length suffix in
  andb (Nat.leb k n) (String.eqb (substring (n - k) k s) suffix).

(** Truthiness of a possibly missing string: [null], [undefined] and the
    empty string are falsy. *)
Definition truthy (x : option string) : bool :=
  match x with
  | Some s => negb (String.eqb s "")
  | None => false
  end.

(** [x || d] on a possibly missing string. *)
Definition or_else (x : option string) (d : string) : string :=
  match x with
  | Some s => if String.eqb s "" then d else s
  | None => d
  end.

(** A string contains the character [c]. *)
Fixpoint contains (c : ascii) (s : string) : bool :=
  match s with
  | EmptyString => false
  | String d rest => orb (Ascii.eqb d c) (contains c rest)
  end.

End JsString.

(* ------------------------------------------------------------------ *)
(** ** The [path] module of Node *)

(** The functions of [require('path')] the action calls.  The program is
    verified against any implementation; [Posix.path] below is the one of a
    Linux runner. *)
Module Path.
Record Lib := {
  basename : string -> string;
  basename_ext : string -> string -> string;
  dirname : string -> string;
  isAbsolute : string -> bool;
  resolve : string -> string -> string;
  join : string -> string -> string
}.
End Path.

Module Posix.

Definition slash : ascii := "/"%char.

(** The last non-empty segment of a path ("" when there is none). *)
Definition last_segment (p : string) : string :=
  last (filter (fun s => negb (String.eqb s "")) (JsString.split slash p)) "".

Definition basename (p : string) : string := last_segment p.

(** [path.basename(p, ext)]: the extension is removed from the last
    segment unless it is the whole segment; [p === ext] gives "". *)
Definition basename_ext (p ext : string) : string :=
  let b := last_segment p in
  if String.eqb ext "" then b
  else if String.eqb p ext then ""
  else if andb (JsString.endsWith b ext) (negb (String.eqb b ext))
       then substring 0 (String.length b - String.length ext) b
       else b.

Definition isAbsolute (p : string) : bool :=
  match p with
  | String c _ => Ascii.eqb c slash
  | EmptyString => false
  end.

(** [normalizeString]: drops empty and "." segments and lets ".." remove
    the segment before it; [stack] is kept in reverse. *)
Fixpoint normalize_segments (allowAboveRoot : bool) (stack segs : list string)
  : list string :=
  match segs with
  | [] => rev stack
  | s :: rest =>
      if orb (String.eqb s "") (String.eqb s ".")
      then normalize_segments allowAboveRoot stack rest
      else if String.eqb s ".."
      then match stack with
           | top :: below =>
               if String.eqb top ".."
               then normalize_segments allowAboveRoot (s :: stack) rest
               else normalize_segments allowAboveRoot below rest
           | [] =>
               if allowAboveRoot
               then normalize_segments allowAboveRoot [s] rest
               else normalize_segments allowAboveRoot [] rest
           end
      else normalize_segments allowAboveRoot (s :: stack) rest
  end.

Definition normalizeString (p : string) (allowAboveRoot : bool) : string :=
  JsString.join "/" (normalize_segments allowAboveRoot [] (JsString.split slash p)).

Definition normalize (p : string) : string :=
  if String.eqb p "" then "."
  else
    let abs := isAbsolute p in
    let trailing := JsString.endsWith p "/" in
    let body := normalizeString p (negb abs) in
    if String.eqb body ""
    then (if abs then "/" else if trailing then "./" else ".")
    else
      let body := if trailing then body ++ "/" else body in
      if abs then "/" ++ body else body.

(** [path.join(a, b)]. *)
Definition join (a b : string) : string :=
  if String.eqb a "" then normalize b
  else if String.eqb b "" then normalize a
  else normalize (a ++ "/" ++ b).

(** [path.dirname(p)]: the index of the separator that ends the
    directory part, looking from the end of the path down to index 1. *)
Fixpoint dirname_end (p : string) (i : nat) (matchedSlash : bool) : option nat :=
  match i with
  | O => None
  | S i' =>
      match String.get i p with
      | Some c =>
          if Ascii.eqb c slash
          then (if matchedSlash then dirname_end p i' true else Some i)
          else dirname_end p i' false
      | None => dirname_end p i' matchedSlash
      end
  end.

Definition dirname (p : string) : string :=
  if String.eqb p "" then "."
  else
    let hasRoot := isAbsolute p in
    match dirname_end p (String.length p - 1) true with
    | None => if hasRoot then "/" else "."
    | Some e => if andb hasRoot (Nat.eqb e 1) then "//" else substring 0 e p
    end.

(** [path.resolve(a, b)] in a process whose working directory is [cwd]
    (an absolute path). *)
Definition resolve (cwd a b : string) : string :=
  let joined :=
    if isAbsolute b then b
    else if isAbsolute a then a ++ "/" ++ b
    else cwd ++ "/" ++ a ++ "/" ++ b in
  "/" ++ normalizeString joined false.

Definition path (cwd : string) : Path.Lib := {|
  Path.basename := basename;
  Path.basename_ext := basename_ext;
  Path.dirname := dirname;
  Path.isAbsolute := isAbsolute;
  Path.resolve := resolve cwd;
  Path.join := join
|}.

End Posix.

(* ------------------------------------------------------------------ *)
(** ** Data model *)

(** What [extractInfoFromFilename] and [getDebInfoWithDpkg] return. *)
Record FileInfo := {
  fi_name : string;
  fi_group : string;
  fi_version : string
}.

(** One entry of the list [getComponents] builds. *)
Record Component := {
  id : string;
  name : string;
  group : string;
  version : string;
  sha256 : string
}.

(** An asset of a component as the REST API returns it:
    [asset.checksum] and [asset.checksum.sha256] may both be missing. *)
Record Asset := {
  checksum : option (option string)
}.

(** An element of [response.data.items], for the component listing and for
    the task listing alike; fields a listing does not carry are [None]. *)
Record Item := {
  item_id : string;
  item_name : string;
  item_group : option string;
  item_version : option string;
  item_assets : option (list Asset);
  item_type : option string
}.

(** An axios response: [response.status] and the two fields of
    [response.data] the action reads. *)
Record Response := {
  status : Z;
  data_items : option (list Item);
  data_continuationToken : option string
}.

(** The result of an external call that may throw or reject. *)
Inductive Try (A : Type) : Type :=
| Success (a : A)
| Failure (message : string).
Arguments Success {A} a.
Arguments Failure {A} message.

(** The body of a POST: the multipart form of an upload (file name and file
    content; the field [apt.asset.filename] repeats the file name) or the
    empty object sent to run a task. *)
Inductive Body :=
| FormData (filename : string) (content : list Byte.byte)
| EmptyObject.

Inductive Request :=
| Get (url : string)
| Delete (url : string)
| Post (url : string) (body : Body).

(** A request together with what axios made of it. *)
Abbreviation Exchange := (Request * Try Response)%type.

(** The Axios configuration built by [run]; the fixed headers are left out. *)
Record Config := {
  baseURL : string;
  username : string;
  password : string;
  csrfToken : string
}.

Inductive FileKind := IsFile | IsDirectory | IsOther.

(** The three captures [getDebInfoWithDpkg] takes out of the output of
    [dpkg -I], each already trimmed, [None] when its pattern does not match. *)
Record DpkgFields := {
  dpkg_Package : option string;
  dpkg_Version : option string;
  dpkg_Architecture : option string
}.

(** Everything outside the program: the action inputs, the clock and random
    source behind the CSRF token, the file system, [dpkg], the hash
    function, the path library and the registry.  The file system does not
    change during a run (the program never writes to it), so its calls are
    functions of the path; [Failure] is a thrown error or rejected promise. *)
Record World := {
  getInput : string -> Try string;
  makeCsrfToken : string;
  stat : string -> Try FileKind;
  lstat_isSymbolicLink : string -> Try bool;
  readlink : string -> Try string;
  readFile : string -> Try (list Byte.byte);
  readdir : string -> Try (list string);
  dpkg_I : string -> Try DpkgFields;
  sha256_digest : list Byte.byte -> list Byte.byte;
  path : Path.Lib;
  server : list Exchange -> Request -> Try Response
}.

(** The calls made on [@actions/core]. *)
Inductive CoreCall :=
| SetFailed (message : string)
| SetOutput (key value : string).

Record State := {
  hasDeletedComponent : bool;
  log : list Exchange;
  core : list CoreCall
}.

(** The state in which [run()] starts when the module is loaded. *)
Definition initial : State :=
  {| hasDeletedComponent := false; log := []; core := [] |}.

Definition requests (st : State) : list Request := map fst (log st).

(* ------------------------------------------------------------------ *)
(** ** Asynchronous functions: state, exceptions and fuel *)

Inductive Outcome (A : Type) : Type :=
| Ret (a : A)
| Exc (message : string)
| OutOfFuel.
Arguments Ret {A} a.
Arguments Exc {A} message.
Arguments OutOfFuel {A}.

Definition M (A : Type) : Type := State -> Outcome A * State.

Definition ret {A} (a : A) : M A := fun st => (Ret a, st).

Definition throw {A} (message : string) : M A := fun st => (Exc message, st).

Definition bind {A B} (m : M A) (k : A -> M B) : M B :=
  fun st =>
    match m st with
    | (Ret a, st') => k a st'
    | (Exc e, st') => (Exc e, st')
    | (OutOfFuel, st') => (OutOfFuel, st')
    end.

(** [try { m } catch (error) { handler error.message }]. *)
Definition try_catch {A} (m : M A) (handler : string -> M A) : M A :=
  fun st =>
    match m st with
    | (Exc e, st') => handler e st'
    | other => other
    end.

(** Awaiting an external call. *)
Definition await {A} (t : Try A) : M A :=
  match t with
  | Success a => ret a
  | Failure e => throw e
  end.

Declare Scope async_scope.
Delimit Scope async_scope with async.
Notation "x <- m ;; k" := (bind m (fun x => k))
  (at level 61, m at next level, right associativity) : async_scope.
Notation "m ;;; k" := (bind m (fun _ => k))
  (at level 61, right associativity) : async_scope.
Open Scope async_scope.

(** [axios.get], [axios.delete] and [axios.post]: the registry answers
    knowing the conversation so far, and the exchange is logged. *)
Definition axios (w : World) (r : Request) : M Response :=
  fun st =>
    let answer := server w (log st) r in
    let st' := {| hasDeletedComponent := hasDeletedComponent st;
                  log := log st ++ [(r, answer)];
                  core := core st |} in
    match answer with
    | Success response => (Ret response, st')
    | Failure e => (Exc e, st')
    end.

Definition set_hasDeletedComponent (b : bool) : M unit :=
  fun st => (Ret tt, {| hasDeletedComponent := b; log := log st; core := core st |}).

Definition get_hasDeletedComponent : M bool :=
  fun st => (Ret (hasDeletedComponent st), st).

Definition core_call (c : CoreCall) : M unit :=
  fun st => (Ret tt, {| hasDeletedComponent := hasDeletedComponent st;
                        log := log st;
                        core := core st ++ [c] |}).

(* ------------------------------------------------------------------ *)
(** ** The functions of [src/index.js] *)

Import JsString.

(** One byte as two lower-case hexadecimal digits. *)
Definition hex_digit (n : N) : ascii :=
  match n with
  | 0%N => "0" | 1%N => "1" | 2%N => "2" | 3%N => "3"
  | 4%N => "4" | 5%N => "5" | 6%N => "6" | 7%N => "7"
  | 8%N => "8" | 9%N => "9" | 10%N => "a" | 11%N => "b"
  | 12%N => "c" | 13%N => "d" | 14%N => "e" | _ => "f"
  end%char.

Fixpoint hex (bytes : list Byte.byte) : string :=
  match bytes with
  | [] => EmptyString
  | b :: rest =>
      let n := Byte.to_N b in
      String (hex_digit (N.div n 16)) (String (hex_digit (N.modulo n 16)) (hex rest))
  end.

(** [crypto.createHash('sha256').update(data).digest('hex')]. *)
Definition generateSHA256 (w : World) (data : list Byte.byte) : string :=
  hex (sha256_digest w data).

(** [getActualFilePath]: every failure inside is caught and gives back the
    path it was called with.  The function only reads the file system, so
    it is a function of the world and needs no state. *)
Definition getActualFilePath (w : World) (filePath : string) : string :=
  match lstat_isSymbolicLink w filePath with
  | Success true =>
      match readlink w filePath with
      | Success targetPath =>
          if negb (Path.isAbsolute (path w) targetPath)
          then
            let dirName := Path.dirname (path w) filePath in
            Path.resolve (path w) dirName targetPath
          else targetPath
      | Failure _ => filePath
      end
  | Success false => filePath
  | Failure _ => filePath
  end.

Definition extractInfoFromFilename (P : Path.Lib) (filename : string) : FileInfo :=
  let basename := Path.basename_ext P filename ".deb" in
  let parts := split "_" basename in
  let name := nth_error parts 0 in
  let group := nth_error parts (List.length parts - 1) in
  let version :=
    if Nat.ltb 2 (List.length parts)
    then join "_" (slice 1 (List.length parts - 1) parts)
    else "" in
  {| fi_name := or_else name "-";
     fi_group := or_else group "-";
     fi_version := or_else (Some version) "-" |}.

(** [getDebInfoWithDpkg]: the fields of [dpkg -I] when all three are
    there, the file name otherwise, also when [dpkg] cannot be run.  Like
    [getActualFilePath] it always returns and touches no state. *)
Definition getDebInfoWithDpkg (w : World) (filePath : string) : FileInfo :=
  match dpkg_I w filePath with
  | Success stdout =>
      let name := dpkg_Package stdout in
      let version := dpkg_Version stdout in
      let arch := dpkg_Architecture stdout in
      match name, version, arch with
      | Some n, Some v, Some a =>
          if truthy name && truthy version && truthy arch
          then {| fi_name := n; fi_group := a; fi_version := v |}
          else extractInfoFromFilename (path w) filePath
      | _, _, _ => extractInfoFromFilename (path w) filePath
      end
  | Failure _ => extractInfoFromFilename (path w) filePath
  end.

Definition components_url (config : Config) (repository : string) : string :=
  baseURL config ++ "/service/rest/v1/components?repository=" ++ repository.

Definition component_url (config : Config) (id : string) : string :=
  baseURL config ++ "/service/rest/v1/components/" ++ id.

Definition tasks_url (config : Config) : string :=
  baseURL config ++ "/service/rest/v1/tasks".

Definition task_run_url (config : Config) (id : string) : string :=
  baseURL config ++ "/service/rest/v1/tasks/" ++ id ++ "/run".

(** The body of the [for (const item of response.data.items)] loop. *)
Definition component_of_item (item : Item) : Component :=
  let sha256 :=
    match item_assets item with
    | Some (asset :: _) =>
        match checksum asset with
        | Some digest => or_else digest "-"
        | None => "-"
        end
    | _ => "-"
    end in
  {| id := item_id item;
     name := item_name item;
     group := or_else (item_group item) "-";
     version := or_else (item_version item) "-";
     sha256 := sha256 |}.

Definition page_components (response : Response) : list Component :=
  match data_items response with
  | Some l => map component_of_item l
  | None => []
  end.

Definition page_url (config : Config) (repository : string)
  (continuationToken : option string) : string :=
  match continuationToken with
  | Some token =>
      if truthy continuationToken
      then components_url config repository ++ "&continuationToken=" ++ token
      else components_url config repository
  | None => components_url config repository
  end.

(** The [do ... while (continuationToken)] loop of [getComponents]; one
    unit of fuel per page. *)
Fixpoint getComponents_loop (fuel : nat) (w : World) (config : Config)
  (repository : string) (components : list Component)
  (continuationToken : option string) : M (list Component) :=
  match fuel with
  | O => fun st => (OutOfFuel, st)
  | S fuel' =>
      let url := page_url config repository continuationToken in
      response <- axios w (Get url);;
      let components := (components ++ page_components response)%list in
      let continuationToken := data_continuationToken response in
      if truthy continuationToken
      then getComponents_loop fuel' w config repository components continuationToken
      else ret components
  end.

Definition getComponents (fuel : nat) (w : World) (config : Config)
  (repository : string) : M (list Component) :=
  try_catch
    (getComponents_loop fuel w config repository [] None)
    (fun error => throw error).

Definition deleteComponent (w : World) (config : Config) (id : string) : M bool :=
  try_catch
    (response <- axios w (Delete (component_url config id));;
     if Z.eqb (status response) 204
     then set_hasDeletedComponent true ;;; ret true
     else ret false)
    (fun _ => ret false).

Definition uploadComponent (w : World) (config : Config) (repository : string)
  (filePath : string) : M bool :=
  try_catch
    (fileContent <- await (readFile w filePath);;
     let formData := FormData (Path.basename (path w) filePath) fileContent in
     response <- axios w (Post (components_url config repository) formData);;
     if Z.eqb (status response) 204 then ret true else ret false)
    (fun _ => ret false).

Definition is_apt_rebuild (item : Item) : bool :=
  match item_type item with
  | Some t => String.eqb t "repository.apt.rebuild.metadata"
  | None => false
  end.

Definition runRebuildAptMetadata (w : World) (config : Config) : M bool :=
  try_catch
    (tasksResponse <- axios w (Get (tasks_url config));;
     if negb (Z.eqb (status tasksResponse) 200) then ret false
     else
       match data_items tasksResponse with
       | None => throw "Cannot read properties of undefined (reading 'find')"
       | Some tasks =>
           match find is_apt_rebuild tasks with
           | None => ret false
           | Some aptTask =>
               runResponse <- axios w (Post (task_run_url config (item_id aptTask)) EmptyObject);;
               if Z.eqb (status runResponse) 204 then ret true else ret false
           end
       end)
    (fun _ => ret false).

(** The condition of the [if] inside the loop of [processSingleFile]. *)
Definition matches (comp : Component) (fileInfo : FileInfo) : bool :=
  String.eqb (name comp) (fi_name fileInfo)
  && (String.eqb (group comp) (fi_group fileInfo)
      || String.eqb (group comp) "-" || String.eqb (fi_group fileInfo) "-")
  && (String.eqb (version comp) (fi_version fileInfo)
      || String.eqb (version comp) "-" || String.eqb (fi_version fileInfo) "-").

(** The [for (const comp of components)] loop of [processSingleFile];
    the result is the final value of [needUpload]. *)
Fixpoint scanComponents (w : World) (config : Config) (fileInfo : FileInfo)
  (fileSha256 : string) (components : list Component) (needUpload : bool) : M bool :=
  match components with
  | [] => ret needUpload
  | comp :: rest =>
      if matches comp fileInfo
      then
        if String.eqb (sha256 comp) fileSha256
        then scanComponents w config fileInfo fileSha256 rest false
        else deleteComponent w config (id comp) ;;;
             scanComponents w config fileInfo fileSha256 rest needUpload
      else scanComponents w config fileInfo fileSha256 rest needUpload
  end.

Definition processSingleFile (w : World) (config : Config) (repository : string)
  (filePath : string) (components : list Component) : M unit :=
  try_catch
    (let actualFilePath := getActualFilePath w filePath in
     let fileInfo := getDebInfoWithDpkg w actualFilePath in
     fileData <- await (readFile w actualFilePath);;
     let fileSha256 := generateSHA256 w fileData in
     needUpload <- scanComponents w config fileInfo fileSha256 components true;;
     if needUpload
     then uploadComponent w config repository actualFilePath ;;; ret tt
     else ret tt)
    (fun error => throw error).

Definition is_deb (file : string) : bool := endsWith (toLowerCase file) ".deb".

(** The [for (const file of debFiles)] loop of [run]. *)
Fixpoint processDebFiles (w : World) (config : Config) (repository : string)
  (uploadPath : string) (components : list Component) (debFiles : list string)
  : M unit :=
  match debFiles with
  | [] => ret tt
  | file :: rest =>
      let filePath :=
        if String.eqb uploadPath "." then file
        else Path.join (path w) uploadPath file in
      processSingleFile w config repository filePath components ;;;
      processDebFiles w config repository uploadPath components rest
  end.

Definition not_deb_message (uploadPath : string) : string :=
  "文件 '" ++ uploadPath ++ "' 不是deb文件".

Definition not_file_or_directory_message (uploadPath : string) : string :=
  "路径 '" ++ uploadPath ++ "' 既不是文件也不是目录".

(** [run]: the inner computation gives [false] where the source leaves
    through [return] after [core.setFailed].  The probe [dpkg --version]
    only decides which message is printed and is left out. *)
Definition run (fuel : nat) (w : World) : M unit :=
  try_catch
    (repository <- await (getInput w "repository");;
     uploadPath <- await (getInput w "path");;
     nexusUrl <- await (getInput w "nexus_url");;
     nexusUser <- await (getInput w "nexus_user");;
     nexusPassword <- await (getInput w "nexus_password");;
     let config := {| baseURL := nexusUrl;
                      username := nexusUser;
                      password := nexusPassword;
                      csrfToken := makeCsrfToken w |} in
     components <- getComponents fuel w config repository;;
     stats <- await (stat w uploadPath);;
     completed <-
       match stats with
       | IsFile =>
           if is_deb uploadPath
           then processSingleFile w config repository uploadPath components ;;; ret true
           else core_call (SetFailed (not_deb_message uploadPath)) ;;; ret false
       | IsDirectory =>
           files <- await (readdir w uploadPath);;
           let debFiles := filter is_deb files in
           processDebFiles w config repository uploadPath components debFiles ;;;
           ret true
       | IsOther =>
           core_call (SetFailed (not_file_or_directory_message uploadPath)) ;;;
           ret false
       end;;
     if (completed : bool)
     then
       deleted <- get_hasDeletedComponent;;
       (if (deleted : bool)
        then runRebuildAptMetadata w config ;;; ret tt
        else ret tt) ;;;
       core_call (SetOutput "result" "上传成功")
     else ret tt)
    (fun error => core_call (SetFailed error)).

(* ------------------------------------------------------------------ *)
(** ** Concrete worlds used by the examples *)

Module Example.

Definition inputs (uploadPath : string) (key : string) : Try string :=
  if String.eqb key "repository" then Success "apt-hosted"
  else if String.eqb key "path" then Success uploadPath
  else if String.eqb key "nexus_url" then Success "http://nexus"
  else if String.eqb key "nexus_user" then Success "admin"
  else if String.eqb key "nexus_password" then Success "admin123"
  else Failure ("Input required and not supplied: " ++ key).

Definition config : Config :=
  {| baseURL := "http://nexus"; username := "admin";
     password := "admin123"; csrfToken := "0.17000000000001234567" |}.

(** A small file system: [files] are the regular files with their
    content, [dirs] the directories with their entries, [links] the
    symbolic links with their targets. *)
Fixpoint lookup {A} (key : string) (table : list (string * A)) : option A :=
  match table with
  | [] => None
  | (k, v) :: rest => if String.eqb k key then Some v else lookup key rest
  end.

Definition or_enoent {A} (p : string) (x : option A) : Try A :=
  match x with
  | Some a => Success a
  | None => Failure ("ENOENT: no such file or directory '" ++ p ++ "'")
  end.

Definition stat_of (files : list (string * list Byte.byte))
  (dirs : list (string * list string)) (p : string) : Try FileKind :=
  match lookup p files, lookup p dirs with
  | Some _, _ => Success IsFile
  | None, Some _ => Success IsDirectory
  | None, None => or_enoent p None
  end.

(** A reply without a body. *)
Definition reply (code : Z) : Response :=
  {| status := code; data_items := None; data_continuationToken := None |}.

Definition page (l : list Item) (token : option string) : Response :=
  {| status := 200; data_items := Some l; data_continuationToken := token |}.

Definition component_item (i n g v : string) (digest : option string) : Item :=
  {| item_id := i; item_name := n; item_group := Some g; item_version := Some v;
     item_assets := Some [ {| checksum := Some digest |} ];
     item_type := None |}.

Definition task_item (i t : string) : Item :=
  {| item_id := i; item_name := "task"; item_group := None; item_version := None;
     item_assets := None; item_type := Some t |}.

(** A registry that holds [inventory] on one page, answers every DELETE
    with [onDelete] and every upload with [onUpload], and has the apt
    rebuild task registered as [task-1]. *)
Definition registry (inventory : list Item) (onDelete onUpload : Try Response)
  (history : list Exchange) (r : Request) : Try Response :=
  match r with
  | Get url =>
      if String.eqb url (tasks_url config)
      then Success (page [task_item "task-1" "repository.apt.rebuild.metadata"] None)
      else Success (page inventory None)
  | Delete _ => onDelete
  | Post _ (FormData _ _) => onUpload
  | Post _ EmptyObject => Success (reply 204)
  end.

(** The stand-in digest of the examples: the content itself, so that the
    file with bytes [ab c1 23] has the fingerprint ["abc123"]. *)
Definition world (uploadPath : string) (files : list (string * list Byte.byte))
  (dirs : list (string * list string)) (links : list (string * string))
  (srv : list Exchange -> Request -> Try Response) : World :=
  {| getInput := inputs uploadPath;
     makeCsrfToken := csrfToken config;
     stat := stat_of files dirs;
     lstat_isSymbolicLink :=
       fun p => match lookup p links with
                | Some _ => Success true
                | None => Success false
                end;
     readlink :=
       fun p => match lookup p links with
                | Some target => Success target
                | None => Failure "EINVAL: invalid argument, readlink"
                end;
     readFile := fun p => or_enoent p (lookup p files);
     readdir := fun p => or_enoent p (lookup p dirs);
     dpkg_I := fun p => Failure "/bin/sh: 1: dpkg: not found";
     sha256_digest := fun data => data;
     path := Posix.path "/home/runner/work";
     server := srv |}.

Definition abc123 : list Byte.byte := [Byte.xab; Byte.xc1; Byte.x23].
Definition xyz789 : list Byte.byte := [Byte.x78; Byte.x9a].

Definition unavailable : Try Response :=
  Failure "Request failed with status code 500".

Definition ok : Try Response := Success (reply 204).

(** The record of [foo_1.0.0_amd64.deb] with the fingerprint [abc123], a
    second record of the same package with another fingerprint, and a
    record without checksum. *)
Definition foo_current : Component :=
  component_of_item (component_item "id1" "foo" "amd64" "1.0.0" (Some "abc123")).

Definition foo_stale : Component :=
  component_of_item (component_item "id2" "foo" "amd64" "1.0.0" (Some "789a")).

Definition foo_unsigned : Item :=
  component_item "id3" "foo" "amd64" "1.0.0" None.

Definition bar_current : Component :=
  component_of_item (component_item "id4" "bar" "all" "2.0" (Some "abc123")).

(** The single file [foo_1.0.0_amd64.deb] with content [ab c1 23], on a
    registry that accepts everything. *)
Definition foo_world : World :=
  world "foo_1.0.0_amd64.deb" [("foo_1.0.0_amd64.deb", abc123)] [] []
    (registry [] ok ok).


(** The single file [readme.txt]. *)
Definition readme_world : World :=
  world "readme.txt" [("readme.txt", abc123)] [] [] (registry [] ok ok).

(** A directory whose second [.deb] entry is a symbolic link to a file
    that does not exist, on a registry that holds a stale copy of the
    first. *)
Definition broken_entry_world : World :=
  world "dist"
    [("dist/foo_1.0.0_amd64.deb", abc123)]
    [("dist", ["foo_1.0.0_amd64.deb"; "gone_1_all.deb"])]
    [("dist/gone_1_all.deb", "../build/gone_1_all.deb")]
    (registry [component_item "id2" "foo" "amd64" "1.0.0" (Some "789a")] ok ok).

(** The same directory without the broken entry, on a registry that
    rejects every deletion. *)
Definition delete_failing_world : World :=
  world "dist"
    [("dist/foo_1.0.0_amd64.deb", abc123)]
    [("dist", ["foo_1.0.0_amd64.deb"])] []
    (registry [component_item "id2" "foo" "amd64" "1.0.0" (Some "789a")]
       unavailable ok).

(** A registry that serves the inventory on two pages. *)
Definition first_page : Response :=
  page [component_item "id1" "foo" "amd64" "1.0.0" (Some "abc123")] (Some "tok1").

Definition second_page : Response :=
  page [component_item "id4" "bar" "all" "2.0" (Some "abc123")] None.

Definition paged_registry (history : list Exchange) (r : Request) : Try Response :=
  match r with
  | Get url =>
      if String.eqb url (components_url config "apt-hosted")
      then Success first_page
      else Success second_page
  | _ => ok
  end.

Definition paged_world : World :=
  world "dist" [] [("dist", [])] [] paged_registry.

(** A registry that serves the first page and rejects the request for the
    second. *)
Definition flaky_registry (history : list Exchange) (r : Request) : Try Response :=
  match r with
  | Get url =>
      if String.eqb url (components_url config "apt-hosted")
      then Success first_page
      else unavailable
  | _ => ok
  end.

Definition flaky_world : World :=
  world "dist" [("dist/foo_1.0.0_amd64.deb", abc123)]
    [("dist", ["foo_1.0.0_amd64.deb"])] [] flaky_registry.

(** A registry whose every page announces another one. *)
Definition endless_registry (history : list Exchange) (r : Request) : Try Response :=
  Success (page [] (Some "more")).

Definition endless_world : World :=
  world "dist" [] [("dist", [])] [] endless_registry.

(** A directory without any package, and a target that does not exist. *)
Definition empty_directory_world : World :=
  world "dist" [("dist/notes.txt", abc123)] [("dist", ["notes.txt"; "sub"])] []
    (registry [component_item "id1" "foo" "amd64" "1.0.0" (Some "abc123")] ok ok).

Definition missing_target_world : World :=
  world "nowhere" [] [] [] (registry [] ok ok).

(** A run without the input [nexus_url]. *)
Definition no_url_world : World :=
  {| getInput := fun key => if String.eqb key "nexus_url"
                            then Failure "Input required and not supplied: nexus_url"
                            else inputs "dist" key;
     makeCsrfToken := makeCsrfToken foo_world;
     stat := stat foo_world;
     lstat_isSymbolicLink := lstat_isSymbolicLink foo_world;
     readlink := readlink foo_world;
     readFile := readFile foo_world;
     readdir := readdir foo_world;
     dpkg_I := dpkg_I foo_world;
     sha256_digest := sha256_digest foo_world;
     path := path foo_world;
     server := server foo_world |}.

(** Two versions of [foo] in one directory, and a registry whose record
    of [foo] has no version. *)
Definition foo_any_version : Component :=
  component_of_item (component_item "id9" "foo" "amd64" "" (Some "0000")).

Definition two_versions_world : World :=
  world "dist"
    [("dist/foo_1.0.0_amd64.deb", abc123); ("dist/foo_2.0.0_amd64.deb", xyz789)]
    [("dist", ["foo_1.0.0_amd64.deb"; "foo_2.0.0_amd64.deb"])] []
    (registry [component_item "id9" "foo" "amd64" "" (Some "0000")] ok ok).

(** A registry with a stale copy of [foo] that accepts deletions and
    uploads, lists the tasks [other], [task-7] and [task-9], the last two
    of the apt rebuild type, and refuses to run a task. *)
Definition busy_registry (history : list Exchange) (r : Request) : Try Response :=
  match r with
  | Get url =>
      if String.eqb url (tasks_url config)
      then Success (page [task_item "other" "repository.cleanup";
                          task_item "task-7" "repository.apt.rebuild.metadata";
                          task_item "task-9" "repository.apt.rebuild.metadata"] None)
      else Success (page [component_item "id2" "foo" "amd64" "1.0.0" (Some "789a")]
                      None)
  | Post _ EmptyObject => unavailable
  | _ => ok
  end.

Definition busy_world : World :=
  world "dist" [("dist/foo_1.0.0_amd64.deb", abc123)]
    [("dist", ["foo_1.0.0_amd64.deb"])] [] busy_registry.

End Example.

(* ------------------------------------------------------------------ *)
(** ** Vocabulary of the statements *)

(** The registry accepted the request: axios resolved with status 204. *)
Definition accepted (answer : Try Response) : bool :=
  match answer with
  | Success response => Z.eqb (status response) 204
  | Failure _ => false
  end.

Definition is_delete (r : Request) : bool :=
  match r with
  | Delete _ => true
  | _ => false
  end.

(** An exchange of the log that is a DELETE answered with 204. *)
Definition delete_succeeded (e : Exchange) : bool :=
  is_delete (fst e) && accepted (snd e).

(** The two task endpoints: the URLs under [/service/rest/v1/tasks]. *)
Definition request_url (r : Request) : string :=
  match r with
  | Get url => url
  | Delete url => url
  | Post url _ => url
  end.

Definition is_task_request (config : Config) (r : Request) : bool :=
  String.prefix (tasks_url config) (request_url r).

(** A page request of the inventory listing. *)
Definition is_listing_request (config : Config) (repository : string)
  (r : Request) : bool :=
  match r with
  | Get url => String.prefix (components_url config repository) url
  | _ => false
  end.

Definition is_upload (r : Request) : bool :=
  match r with
  | Post _ (FormData _ _) => true
  | _ => false
  end.

Definition delete_request (config : Config) (comp : Component) : Request :=
  Delete (component_url config (id comp)).

Definition upload_request (w : World) (config : Config) (repository : string)
  (actualFilePath : string) (fileData : list Byte.byte) : Request :=
  Post (components_url config repository)
       (FormData (Path.basename (path w) actualFilePath) fileData).

(** A matching record whose fingerprint is the one of the file. *)
Definition current (fileInfo : FileInfo) (fileSha256 : string) (comp : Component) : bool :=
  matches comp fileInfo && String.eqb (sha256 comp) fileSha256.

(** A matching record whose fingerprint is another one. *)
Definition stale (fileInfo : FileInfo) (fileSha256 : string) (comp : Component) : bool :=
  matches comp fileInfo && negb (String.eqb (sha256 comp) fileSha256).

(** The requests reconciling one readable file is expected to issue. *)
Definition reconcile_requests (w : World) (config : Config) (repository : string)
  (components : list Component) (actualFilePath : string)
  (fileData : list Byte.byte) : list Request :=
  let fileInfo := getDebInfoWithDpkg w actualFilePath in
  let fileSha256 := generateSHA256 w fileData in
  (map (delete_request config) (filter (stale fileInfo fileSha256) components)
   ++ (if existsb (current fileInfo fileSha256) components then []
       else [upload_request w config repository actualFilePath fileData]))%list.

(** [st'] is [st] after the exchanges [l]: the log grew by [l], every
    answer in [l] is one the registry gave, and the deletion flag was
    raised exactly by the accepted DELETEs of [l]. *)
Definition grows (w : World) (st : State) (l : list Exchange) (st' : State) : Prop :=
  log st' = (log st ++ l)%list /\
  hasDeletedComponent st' = hasDeletedComponent st || existsb delete_succeeded l /\
  Forall (fun e => exists history, server w history (fst e) = snd e) l.

(** The registry answers the requests [rs], asked one after the other from
    the history [h] on, with the responses [ps]. *)
Fixpoint answers (w : World) (h : list Exchange) (rs : list Request)
  (ps : list Response) : Prop :=
  match rs, ps with
  | [], [] => True
  | r :: rs', p :: ps' =>
      server w h r = Success p /\ answers w (h ++ [(r, Success p)])%list rs' ps'
  | _, _ => False
  end.

(** The page requests a listing of the pages [ps] consists of: the first
    without a cursor, each later one with the cursor of the page before. *)
Fixpoint page_requests (config : Config) (repository : string)
  (continuationToken : option string) (ps : list Response) : list Request :=
  match ps with
  | [] => []
  | p :: ps' =>
      Get (page_url config repository continuationToken)
      :: page_requests config repository (data_continuationToken p) ps'
  end.

(** [run] reported failure, respectively success, to the workflow. *)
Definition reported_failure (st : State) : bool :=
  existsb (fun c => match c with SetFailed _ => true | _ => false end) (core st).

Definition reported_success (st : State) : bool :=
  existsb (fun c => match c with SetOutput _ _ => true | _ => false end) (core st).

(** The path [run] hands to [processSingleFile] for a directory entry. *)
Definition entry_path (w : World) (uploadPath file : string) : string :=
  if String.eqb uploadPath "." then file
  else Path.join (path w) uploadPath file.

(** The file behind [filePath] can be read. *)
Definition readable (w : World) (filePath : string) : bool :=
  match readFile w (getActualFilePath w filePath) with
  | Success _ => true
  | Failure _ => false
  end.

(** The requests reconciling [filePath] is expected to issue. *)
Definition file_requests (w : World) (config : Config) (repository : string)
  (components : list Component) (filePath : string) : list Request :=
  match readFile w (getActualFilePath w filePath) with
  | Success fileData =>
      reconcile_requests w config repository components
        (getActualFilePath w filePath) fileData
  | Failure _ => []
  end.

(** Two stretches of [run], named so that statements can refer to them:
    from [statAsync] to the end of the file-or-directory branch, and from
    there to the end of the [try] block. *)
Definition reconcile_target (w : World) (config : Config)
  (repository uploadPath : string) (components : list Component) : M bool :=
  stats <- await (stat w uploadPath);;
  match stats with
  | IsFile =>
      if is_deb uploadPath
      then processSingleFile w config repository uploadPath components ;;; ret true
      else core_call (SetFailed (not_deb_message uploadPath)) ;;; ret false
  | IsDirectory =>
      files <- await (readdir w uploadPath);;
      let debFiles := filter is_deb files in
      processDebFiles w config repository uploadPath components debFiles ;;;
      ret true
  | IsOther =>
      core_call (SetFailed (not_file_or_directory_message uploadPath)) ;;;
      ret false
  end.

Definition conclude (w : World) (config : Config) (completed : bool) : M unit :=
  if completed
  then
    deleted <- get_hasDeletedComponent;;
    (if (deleted : bool)
     then runRebuildAptMetadata w config ;;; ret tt
     else ret tt) ;;;
    core_call (SetOutput "result" "上传成功")
  else ret tt.

Arguments conclude : simpl never.
Arguments reconcile_target : simpl never.

(** The inputs of the action as [run] reads them. *)
Definition inputs_are (w : World)
  (repository uploadPath nexusUrl nexusUser nexusPassword : string) : Prop :=
  getInput w "repository" = Success repository /\
  getInput w "path" = Success uploadPath /\
  getInput w "nexus_url" = Success nexusUrl /\
  getInput w "nexus_user" = Success nexusUser /\
  getInput w "nexus_password" = Success nexusPassword.

(** The configuration [run] builds from them. *)
Definition config_of (w : World) (nexusUrl nexusUser nexusPassword : string) : Config :=
  {| baseURL := nexusUrl;
     username := nexusUser;
     password := nexusPassword;
     csrfToken := makeCsrfToken w |}.

Definition add_core (st : State) (c : CoreCall) : State :=
  {| hasDeletedComponent := hasDeletedComponent st;
     log := log st;
     core := (core st ++ [c])%list |}.

(** The checksum the registry recorded for the first asset of a listed
    component, if any. *)
Definition recorded_checksum (item : Item) : option string :=
  match item_assets item with
  | Some (asset :: _) =>
      match checksum asset with
      | Some (Some digest) => if String.eqb digest "" then None else Some digest
      | _ => None
      end
  | _ => None
  end.

(* ------------------------------------------------------------------ *)
(** ** Vocabulary of the further properties *)

(** The five inputs [run] reads, in the order it reads them. *)
Definition input_keys : list string :=
  ["repository"; "path"; "nexus_url"; "nexus_user"; "nexus_password"].

(** A DELETE of a component or the upload of a file. *)
Definition is_mutation (r : Request) : bool := is_delete r || is_upload r.

(** The entries of [debFiles] up to, and without, the first one that
    cannot be read. *)
Fixpoint readable_prefix (w : World) (uploadPath : string) (debFiles : list string)
  : list string :=
  match debFiles with
  | [] => []
  | file :: rest =>
      if readable w (entry_path w uploadPath file)
      then file :: readable_prefix w uploadPath rest
      else []
  end.

(** The same world in front of another registry. *)
Definition with_server (w : World)
  (srv : list Exchange -> Request -> Try Response) : World :=
  {| getInput := getInput w;
     makeCsrfToken := makeCsrfToken w;
     stat := stat w;
     lstat_isSymbolicLink := lstat_isSymbolicLink w;
     readlink := readlink w;
     readFile := readFile w;
     readdir := readdir w;
     dpkg_I := dpkg_I w;
     sha256_digest := sha256_digest w;
     path := path w;
     server := srv |}.

(** A lower-case hexadecimal digit, and a string made of such digits. *)
Definition is_lower_hex_digit (c : ascii) : bool :=
  let n := nat_of_ascii c in
  (Nat.leb 48 n && Nat.leb n 57) || (Nat.leb 97 n && Nat.leb n 102).

Fixpoint is_lower_hex (s : string) : bool :=
  match s with
  | EmptyString => true
  | String c rest => is_lower_hex_digit c && is_lower_hex rest
  end.

(** The exchanges of a listing that was served the pages [ps]. *)
Fixpoint page_exchanges (config : Config) (repository : string)
  (continuationToken : option string) (ps : list Response) : list Exchange :=
  match ps with
  | [] => []
  | p :: ps' =>
      (Get (page_url config repository continuationToken), Success p)
      :: page_exchanges config repository (data_continuationToken p) ps'
  end.

(** The cursor a listing holds after the pages [ps]. *)
Definition cursor_after (continuationToken : option string) (ps : list Response)
  : option string :=
  fold_left (fun _ p => data_continuationToken p) ps continuationToken.

(** The registry answers every page request, whatever came before, with a
    page that carries a continuation token. *)
Definition always_more (w : World) : Prop :=
  forall history url,
    exists p, server w history (Get url) = Success p /\
              truthy (data_continuationToken p) = true.

(** The request that follows the task listing in the rebuild routine, if
    any: the run of the first listed task of the apt rebuild type, when the
    listing was answered with status 200. *)
Definition rebuild_run_request (config : Config) (answer : Try Response)
  : list Request :=
  match answer with
  | Success tasksResponse =>
      if Z.eqb (status tasksResponse) 200
      then match data_items tasksResponse with
           | Some tasks =>
               match find is_apt_rebuild tasks with
               | Some aptTask =>
                   [Post (task_run_url config (item_id aptTask)) EmptyObject]
               | None => []
               end
           | None => []
           end
      else []
  | Failure _ => []
  end.

(** Closes a goal that equates two ways of writing the requests of a
    state whose log is given explicitly. *)
Ltac same_requests :=
  unfold requests; cbv zeta; simpl;
  repeat match goal with x := _ |- _ => subst x end;
  rewrite ?map_app; simpl; rewrite <- ?app_assoc; reflexivity.

(* ------------------------------------------------------------------ *)
(** ** Strings *)

Lemma prefix_append_same (a b c : string) :
  String.prefix (a ++ b) (a ++ c) = String.prefix b c.
Proof.
  induction a as [|x a IH]; simpl; [reflexivity|].
  destruct (ascii_dec x x) as [_|N]; [exact IH | congruence].
Qed.

Lemma tasks_not_components (config : Config) (rest : string) :
  String.prefix (tasks_url config)
    (baseURL config ++ "/service/rest/v1/components" ++ rest) = false.
Proof.
  unfold tasks_url. rewrite prefix_append_same. reflexivity.
Qed.

Lemma components_not_tasks (config : Config) (repository rest : string) :
  String.prefix (components_url config repository)
    (baseURL config ++ "/service/rest/v1/tasks" ++ rest) = false.
Proof.
  unfold components_url. rewrite prefix_append_same. reflexivity.
Qed.

Lemma prefix_refl_append (a b : string) : String.prefix a (a ++ b) = true.
Proof.
  induction a as [|x a IH]; simpl; [destruct b; reflexivity|].
  destruct (ascii_dec x x) as [_|N]; [exact IH | congruence].
Qed.

Lemma append_nil_r (a : string) : a ++ "" = a.
Proof. induction a; simpl; congruence. Qed.

Lemma append_assoc_s (a b c : string) : (a ++ b) ++ c = a ++ (b ++ c).
Proof. induction a; simpl; congruence. Qed.

Lemma hex_length_even (bytes : list Byte.byte) :
  Nat.even (String.length (hex bytes)) = true.
Proof. induction bytes as [|b l IH]; simpl; auto. Qed.

(** A hexadecimal digest is never the placeholder ["-"]. *)
Lemma generateSHA256_not_placeholder (w : World) (data : list Byte.byte) :
  generateSHA256 w data <> "-".
Proof.
  unfold generateSHA256. intros E.
  pose proof (hex_length_even (sha256_digest w data)) as H.
  rewrite E in H. discriminate H.
Qed.

(* ------------------------------------------------------------------ *)
(** ** How the state evolves *)

Lemma grows_refl (w : World) (st : State) : grows w st [] st.
Proof.
  unfold grows. rewrite app_nil_r, orb_false_r. auto.
Qed.

Lemma grows_trans (w : World) (st1 st2 st3 : State) (l1 l2 : list Exchange) :
  grows w st1 l1 st2 -> grows w st2 l2 st3 -> grows w st1 (l1 ++ l2) st3.
Proof.
  intros (L1 & F1 & A1) (L2 & F2 & A2). unfold grows.
  rewrite L2, L1, F2, F1, existsb_app, app_assoc, orb_assoc.
  repeat split; auto. apply Forall_app; auto.
Qed.

Lemma grows_requests (w : World) (st st' : State) (l : list Exchange) :
  grows w st l st' -> requests st' = (requests st ++ map fst l)%list.
Proof.
  intros (L & _). unfold requests. rewrite L, map_app. reflexivity.
Qed.

(** One axios call: the exchange is logged, nothing else changes. *)
Lemma axios_spec (w : World) (r : Request) (st : State) :
  let answer := server w (log st) r in
  exists st',
    axios w r st =
      (match answer with Success p => Ret p | Failure e => Exc e end, st') /\
    log st' = (log st ++ [(r, answer)])%list /\
    hasDeletedComponent st' = hasDeletedComponent st /\
    core st' = core st.
Proof.
  intros answer. unfold axios. fold answer.
  destruct answer; eexists; repeat split; reflexivity.
Qed.

(** [deleteComponent] never throws; it raises the flag exactly when the
    registry accepted the DELETE. *)
Lemma deleteComponent_spec (w : World) (config : Config) (i : string) (st : State) :
  let r := Delete (component_url config i) in
  let answer := server w (log st) r in
  exists st',
    deleteComponent w config i st = (Ret (accepted answer), st') /\
    log st' = (log st ++ [(r, answer)])%list /\
    hasDeletedComponent st' = hasDeletedComponent st || accepted answer /\
    core st' = core st.
Proof.
  intros r answer. unfold deleteComponent, try_catch, bind, axios.
  fold r. fold answer.
  destruct answer as [p|e]; simpl.
  - destruct (Z.eqb (status p) 204); simpl;
      eexists; repeat split; simpl;
      rewrite ?orb_true_r, ?orb_false_r; reflexivity.
  - eexists; repeat split; simpl. rewrite orb_false_r. reflexivity.
Qed.

Lemma deleteComponent_grows (w : World) (config : Config) (i : string) (st : State) :
  exists b st' answer,
    deleteComponent w config i st = (Ret b, st') /\
    grows w st [(Delete (component_url config i), answer)] st' /\
    core st' = core st.
Proof.
  destruct (deleteComponent_spec w config i st) as (st' & E & L & F & C).
  eexists _, st', _. split; [exact E|]. split; [|exact C].
  unfold grows. split; [exact L|]. split.
  - rewrite F. simpl. unfold delete_succeeded. simpl. rewrite orb_false_r. reflexivity.
  - constructor; [|constructor]. simpl. eauto.
Qed.

(** [uploadComponent] never throws either: a rejected or refused upload
    only makes it return [false]. *)
Lemma uploadComponent_spec (w : World) (config : Config) (repository filePath : string)
  (st : State) :
  exists b st' l,
    uploadComponent w config repository filePath st = (Ret b, st') /\
    grows w st l st' /\
    core st' = core st /\
    map fst l =
      match readFile w filePath with
      | Success fileData => [upload_request w config repository filePath fileData]
      | Failure _ => []
      end /\
    (b = true <->
     exists fileData, readFile w filePath = Success fileData /\
       existsb (fun e => accepted (snd e)) l = true).
Proof.
  unfold uploadComponent, try_catch, bind, await.
  destruct (readFile w filePath) as [fileData|e]; simpl.
  - unfold axios.
    set (r := Post _ _).
    set (answer := server w (log st) r).
    assert (G : forall st', log st' = (log st ++ [(r, answer)])%list ->
                hasDeletedComponent st' = hasDeletedComponent st ->
                grows w st [(r, answer)] st').
    { intros st' L F. unfold grows. rewrite L, F. simpl.
      unfold delete_succeeded. subst r. simpl. rewrite orb_false_r.
      repeat split. constructor; [|constructor]. simpl.
      exists (log st). reflexivity. }
    destruct answer as [p|e] eqn:EA; simpl.
    + destruct (Z.eqb (status p) 204) eqn:E204; simpl;
        eexists _, _, [(r, Success p)]; (split; [reflexivity|]);
        (split; [apply G; reflexivity|]); (split; [reflexivity|]);
        (split; [reflexivity|]); simpl; rewrite E204; simpl.
      * split; [intros _; eauto | reflexivity].
      * split; [discriminate | intros (d & _ & H); discriminate H].
    + eexists _, _, [(r, Failure e)]; (split; [reflexivity|]);
        (split; [apply G; reflexivity|]); (split; [reflexivity|]);
        (split; [reflexivity|]); simpl.
      split; [discriminate | intros (d & _ & H); discriminate H].
  - unfold throw, ret. exists false, st, []. split; [reflexivity|].
    split; [apply grows_refl|]. split; [reflexivity|]. split; [reflexivity|].
    split; [discriminate | intros (d & H & _); discriminate H].
Qed.

(** The loop over the inventory: it always finishes, asks for the deletion
    of the stale matches in inventory order and of nothing else, and leaves
    [needUpload] set only if it was set and no match is current. *)
Lemma scanComponents_spec (w : World) (config : Config) (fileInfo : FileInfo)
  (fileSha256 : string) (components : list Component) :
  forall (needUpload : bool) (st : State),
  exists st' l,
    scanComponents w config fileInfo fileSha256 components needUpload st =
      (Ret (needUpload && negb (existsb (current fileInfo fileSha256) components)), st') /\
    grows w st l st' /\
    core st' = core st /\
    map fst l =
      map (delete_request config) (filter (stale fileInfo fileSha256) components).
Proof.
  induction components as [|comp rest IH]; intros needUpload st; simpl.
  - exists st, []. rewrite andb_true_r. unfold ret.
    split; [reflexivity|]. split; [apply grows_refl|]. split; reflexivity.
  - unfold current, stale. destruct (matches comp fileInfo) eqn:EM; simpl.
    + destruct (String.eqb (sha256 comp) fileSha256) eqn:ES; simpl.
      * destruct (IH false st) as (st' & l & E & G & C & R).
        exists st', l. rewrite E, andb_false_r. simpl. auto.
      * unfold bind.
        destruct (deleteComponent_grows w config (id comp) st)
          as (b & st1 & answer & E1 & G1 & C1).
        rewrite E1.
        destruct (IH needUpload st1) as (st' & l & E & G & C & R).
        exists st', ((Delete (component_url config (id comp)), answer) :: l).
        rewrite E. split; [reflexivity|].
        split; [exact (grows_trans G1 G)|].
        split; [congruence|]. simpl. rewrite R. reflexivity.
    + destruct (IH needUpload st) as (st' & l & E & G & C & R).
      exists st', l. rewrite E. auto.
Qed.

(** Reconciling a readable file: no exception, and the requests are the
    deletions of the stale matches followed by the upload unless a match is
    current. *)
Lemma processSingleFile_readable (w : World) (config : Config)
  (repository filePath : string) (components : list Component) (st : State)
  (fileData : list Byte.byte) :
  readFile w (getActualFilePath w filePath) = Success fileData ->
  exists st' l,
    processSingleFile w config repository filePath components st = (Ret tt, st') /\
    grows w st l st' /\
    core st' = core st /\
    map fst l =
      reconcile_requests w config repository components
        (getActualFilePath w filePath) fileData.
Proof.
  intros HR. unfold processSingleFile, try_catch, bind, await. rewrite HR. simpl.
  destruct (scanComponents_spec w config
              (getDebInfoWithDpkg w (getActualFilePath w filePath))
              (generateSHA256 w fileData) components true st)
    as (st1 & l1 & E1 & G1 & C1 & R1).
  rewrite E1. simpl. unfold reconcile_requests.
  destruct (existsb _ components); simpl.
  - exists st1, l1. rewrite app_nil_r. auto.
  - destruct (uploadComponent_spec w config repository
                (getActualFilePath w filePath) st1)
      as (b & st2 & l2 & E2 & G2 & C2 & R2 & _).
    unfold bind. rewrite E2. simpl. exists st2, (l1 ++ l2)%list.
    split; [reflexivity|]. split; [exact (grows_trans G1 G2)|].
    split; [congruence|]. rewrite map_app. rewrite HR in R2.
    f_equal; assumption.
Qed.

(** A file that cannot be read makes [processSingleFile] throw before any
    request is issued. *)
Lemma processSingleFile_unreadable (w : World) (config : Config)
  (repository filePath : string) (components : list Component) (st : State)
  (e : string) :
  readFile w (getActualFilePath w filePath) = Failure e ->
  processSingleFile w config repository filePath components st = (Exc e, st).
Proof.
  intros HR. unfold processSingleFile, try_catch, bind, await. rewrite HR.
  reflexivity.
Qed.

(* ------------------------------------------------------------------ *)
(** ** Reconciling one file *)

Lemma matches_spec (comp : Component) (fileInfo : FileInfo) :
  matches comp fileInfo = true <->
  name comp = fi_name fileInfo /\
  (group comp = fi_group fileInfo \/ group comp = "-" \/ fi_group fileInfo = "-") /\
  (version comp = fi_version fileInfo \/ version comp = "-" \/ fi_version fileInfo = "-").
Proof.
  unfold matches.
  rewrite !andb_true_iff, !orb_true_iff, !String.eqb_eq. tauto.
Qed.

Lemma in_stale_deleted (config : Config) (fileInfo : FileInfo) (fileSha256 : string)
  (components : list Component) (comp : Component) (tail : list Request) :
  In comp components ->
  matches comp fileInfo = true ->
  sha256 comp <> fileSha256 ->
  In (delete_request config comp)
     (map (delete_request config) (filter (stale fileInfo fileSha256) components) ++ tail).
Proof.
  intros HI HM HS. apply in_or_app. left. apply in_map. apply filter_In.
  split; [exact HI|]. unfold stale. rewrite HM. simpl.
  apply negb_true_iff. apply String.eqb_neq. exact HS.
Qed.

Lemma existsb_current_iff (fileInfo : FileInfo) (fileSha256 : string)
  (components : list Component) :
  existsb (current fileInfo fileSha256) components = true <->
  exists comp, In comp components /\ matches comp fileInfo = true /\
               sha256 comp = fileSha256.
Proof.
  rewrite existsb_exists. unfold current.
  split; intros (c & HI & H); exists c; split; auto.
  - apply andb_true_iff in H. rewrite String.eqb_eq in H. exact H.
  - apply andb_true_iff. rewrite String.eqb_eq. exact H.
Qed.

Lemma deletes_are_not_uploads (config : Config) (l : list Component) (r : Request) :
  In r (map (delete_request config) l) -> is_upload r = false.
Proof.
  intros H. apply in_map_iff in H. destruct H as (c & <- & _). reflexivity.
Qed.

(** Where the upload of a reconciliation is, if anywhere. *)
Lemma upload_in_reconcile (w : World) (config : Config) (repository : string)
  (components : list Component) (actualFilePath : string) (fileData : list Byte.byte) :
  let fileInfo := getDebInfoWithDpkg w actualFilePath in
  let fileSha256 := generateSHA256 w fileData in
  filter is_upload
    (reconcile_requests w config repository components actualFilePath fileData) =
  if existsb (current fileInfo fileSha256) components then []
  else [upload_request w config repository actualFilePath fileData].
Proof.
  intros fileInfo fileSha256. unfold reconcile_requests.
  fold fileInfo. fold fileSha256. rewrite filter_app.
  assert (E : filter is_upload
                (map (delete_request config)
                     (filter (stale fileInfo fileSha256) components)) = []).
  { induction (filter (stale fileInfo fileSha256) components); simpl; auto. }
  rewrite E. simpl. destruct (existsb _ components); reflexivity.
Qed.

Lemma deletes_in_reconcile (w : World) (config : Config) (repository : string)
  (components : list Component) (actualFilePath : string) (fileData : list Byte.byte) :
  let fileInfo := getDebInfoWithDpkg w actualFilePath in
  let fileSha256 := generateSHA256 w fileData in
  filter is_delete
    (reconcile_requests w config repository components actualFilePath fileData) =
  map (delete_request config) (filter (stale fileInfo fileSha256) components).
Proof.
  intros fileInfo fileSha256. unfold reconcile_requests.
  fold fileInfo. fold fileSha256. rewrite filter_app.
  assert (E : forall l, filter is_delete (map (delete_request config) l) =
                        map (delete_request config) l).
  { induction l; simpl; congruence. }
  rewrite E. destruct (existsb _ components); simpl; rewrite app_nil_r; reflexivity.
Qed.

(** A listed component without a recorded checksum carries the
    placeholder, which no digest equals. *)
Lemma no_checksum_never_current (w : World) (item : Item) (fileData : list Byte.byte) :
  recorded_checksum item = None ->
  sha256 (component_of_item item) = "-" /\
  sha256 (component_of_item item) <> generateSHA256 w fileData.
Proof.
  intros H.
  assert (E : sha256 (component_of_item item) = "-").
  { unfold recorded_checksum in H. unfold component_of_item. simpl.
    destruct (item_assets item) as [[|asset rest]|]; try reflexivity.
    destruct (checksum asset) as [[digest|]|]; try reflexivity.
    simpl. destruct (String.eqb digest ""); [reflexivity | discriminate H]. }
  split; [exact E|]. rewrite E. intros C.
  exact (generateSHA256_not_placeholder w fileData (eq_sym C)).
Qed.

(* ------------------------------------------------------------------ *)
(** ** File names *)

Lemma split_without_separator (sep : ascii) (s : string) :
  contains sep s = false -> split sep s = [s].
Proof.
  induction s as [|c rest IH]; simpl; [reflexivity|].
  intros H. apply orb_false_iff in H. destruct H as [Hc Hrest].
  rewrite Hc, (IH Hrest). reflexivity.
Qed.

Lemma split_at_first_separator (sep : ascii) (p q : string) :
  contains sep p = false ->
  split sep (p ++ String sep q) = p :: split sep q.
Proof.
  induction p as [|c rest IH]; simpl.
  - intros _. rewrite Ascii.eqb_refl. reflexivity.
  - intros H. apply orb_false_iff in H. destruct H as [Hc Hrest].
    rewrite Hc, (IH Hrest). reflexivity.
Qed.

Lemma or_else_some (s d : string) :
  or_else (Some s) d = if String.eqb s "" then d else s.
Proof. reflexivity. Qed.

(** The descriptor taken from a base name without underscore. *)
Lemma extractInfo_no_underscore (P : Path.Lib) (filename : string) :
  let b := Path.basename_ext P filename ".deb" in
  contains "_" b = false ->
  extractInfoFromFilename P filename =
    {| fi_name := if String.eqb b "" then "-" else b;
       fi_group := if String.eqb b "" then "-" else b;
       fi_version := "-" |}.
Proof.
  intros b H. unfold extractInfoFromFilename. fold b.
  rewrite (split_without_separator _ _ H). reflexivity.
Qed.

(** The descriptor taken from a base name with exactly one underscore. *)
Lemma extractInfo_one_underscore (P : Path.Lib) (filename p q : string) :
  Path.basename_ext P filename ".deb" = p ++ "_" ++ q ->
  contains "_" p = false ->
  contains "_" q = false ->
  extractInfoFromFilename P filename =
    {| fi_name := if String.eqb p "" then "-" else p;
       fi_group := if String.eqb q "" then "-" else q;
       fi_version := "-" |}.
Proof.
  intros E Hp Hq. unfold extractInfoFromFilename. rewrite E.
  change (p ++ "_" ++ q) with (p ++ String "_" q).
  rewrite (split_at_first_separator _ _ q Hp), (split_without_separator _ _ Hq).
  reflexivity.
Qed.

(* ------------------------------------------------------------------ *)
(** ** Listing the inventory *)

Lemma listing_request_page_url (config : Config) (repository : string)
  (continuationToken : option string) :
  is_listing_request config repository
    (Get (page_url config repository continuationToken)) = true.
Proof.
  unfold is_listing_request, page_url.
  destruct continuationToken as [token|]; simpl.
  - destruct (String.eqb token ""); simpl.
    + rewrite <- (append_nil_r (components_url config repository)) at 2.
      apply prefix_refl_append.
    + apply prefix_refl_append.
  - rewrite <- (append_nil_r (components_url config repository)) at 2.
    apply prefix_refl_append.
Qed.

(** Whatever the registry answers, the listing only issues page requests
    and leaves the deletion flag and the workflow status alone. *)
Lemma getComponents_loop_grows (w : World) (config : Config) (repository : string)
  (fuel : nat) :
  forall (components : list Component) (continuationToken : option string) (st : State),
  exists out st' l,
    getComponents_loop fuel w config repository components continuationToken st =
      (out, st') /\
    grows w st l st' /\
    core st' = core st /\
    hasDeletedComponent st' = hasDeletedComponent st /\
    Forall (fun r => is_listing_request config repository r = true) (map fst l).
Proof.
  induction fuel as [|fuel IH]; intros components continuationToken st; simpl.
  - exists OutOfFuel, st, []. split; [reflexivity|]. split; [apply grows_refl|].
    repeat split; constructor.
  - unfold bind.
    set (r := Get (page_url config repository continuationToken)).
    destruct (axios_spec w r st) as (st1 & E1 & L1 & F1 & C1).
    rewrite E1.
    assert (G1 : grows w st [(r, server w (log st) r)] st1).
    { unfold grows. rewrite L1, F1. simpl. unfold delete_succeeded. simpl.
      rewrite orb_false_r. split; [reflexivity|]. split; [reflexivity|].
      constructor; [|constructor]. simpl. eauto. }
    assert (Q1 : is_listing_request config repository r = true)
      by apply listing_request_page_url.
    destruct (server w (log st) r) as [response|e].
    + destruct (truthy (data_continuationToken response)).
      * destruct (IH (components ++ page_components response)%list
                     (data_continuationToken response) st1)
          as (out & st' & l & E & G & C & F & Q).
        exists out, st', ((r, Success response) :: l).
        split; [exact E|]. split; [exact (grows_trans G1 G)|].
        split; [congruence|]. split; [congruence|].
        simpl. constructor; assumption.
      * eexists _, st1, _. split; [reflexivity|]. split; [exact G1|].
        split; [exact C1|]. split; [exact F1|].
        simpl. constructor; [exact Q1 | constructor].
    + eexists _, st1, _. split; [reflexivity|]. split; [exact G1|].
      split; [exact C1|]. split; [exact F1|].
      simpl. constructor; [exact Q1 | constructor].
Qed.

Lemma getComponents_grows (w : World) (config : Config) (repository : string)
  (fuel : nat) (st : State) :
  exists out st' l,
    getComponents fuel w config repository st = (out, st') /\
    grows w st l st' /\
    core st' = core st /\
    hasDeletedComponent st' = hasDeletedComponent st /\
    Forall (fun r => is_listing_request config repository r = true) (map fst l).
Proof.
  destruct (getComponents_loop_grows w config repository fuel [] None st)
    as (out & st' & l & E & G & C & F & Q).
  exists out, st', l. unfold getComponents, try_catch. rewrite E.
  destruct out; auto.
Qed.


(* ------------------------------------------------------------------ *)
(** ** The phases of [run] *)

(** [run] is the listing, then [reconcile_target], then [conclude], all
    inside one [try] whose handler reports the failure. *)
Lemma run_phases (fuel : nat) (w : World)
  (repository uploadPath nexusUrl nexusUser nexusPassword : string) (st : State) :
  inputs_are w repository uploadPath nexusUrl nexusUser nexusPassword ->
  let config := config_of w nexusUrl nexusUser nexusPassword in
  run fuel w st =
  match getComponents fuel w config repository st with
  | (Ret components, st1) =>
      match reconcile_target w config repository uploadPath components st1 with
      | (Ret completed, st2) =>
          match conclude w config completed st2 with
          | (Exc e, st3) => (Ret tt, add_core st3 (SetFailed e))
          | other => other
          end
      | (Exc e, st2) => (Ret tt, add_core st2 (SetFailed e))
      | (OutOfFuel, st2) => (OutOfFuel, st2)
      end
  | (Exc e, st1) => (Ret tt, add_core st1 (SetFailed e))
  | (OutOfFuel, st1) => (OutOfFuel, st1)
  end.
Proof.
  intros (I1 & I2 & I3 & I4 & I5) config. unfold config_of in config.
  unfold run, reconcile_target, try_catch, bind, await.
  rewrite I1, I2, I3, I4, I5. simpl. fold config.
  destruct (getComponents fuel w config repository st) as [[components|e|] st1];
    try reflexivity.
  destruct (stat w uploadPath) as [[| |]|e]; simpl; try reflexivity.
  - destruct (is_deb uploadPath); [|reflexivity].
    destruct (processSingleFile w config repository uploadPath components st1)
      as [[[]|e|] st2]; reflexivity.
  - destruct (readdir w uploadPath) as [files|e]; simpl; [|reflexivity].
    destruct (processDebFiles w config repository uploadPath components
                (filter is_deb files) st1) as [[[]|e|] st2]; reflexivity.
Qed.

Lemma prefix_split (a s : string) :
  String.prefix a s = true -> exists rest, s = a ++ rest.
Proof.
  revert s. induction a as [|x a IH]; intros s H; simpl in *.
  - exists s. reflexivity.
  - destruct s as [|y s]; [discriminate|]. simpl in H.
    destruct (ascii_dec x y) as [Exy|]; [|discriminate]. subst y.
    destruct (IH s H) as (rest & E). subst s. exists rest. reflexivity.
Qed.

Lemma delete_request_not_task (config : Config) (comp : Component) :
  is_task_request config (delete_request config comp) = false.
Proof.
  unfold is_task_request, delete_request, component_url. simpl.
  exact (tasks_not_components config ("/" ++ id comp)).
Qed.

Lemma upload_request_not_task (w : World) (config : Config)
  (repository actualFilePath : string) (fileData : list Byte.byte) :
  is_task_request config
    (upload_request w config repository actualFilePath fileData) = false.
Proof.
  unfold is_task_request, upload_request, components_url. simpl.
  exact (tasks_not_components config ("?repository=" ++ repository)).
Qed.

Lemma listing_request_not_task (config : Config) (repository : string) (r : Request) :
  is_listing_request config repository r = true ->
  is_task_request config r = false.
Proof.
  destruct r as [url| |]; simpl; try discriminate.
  intros H. destruct (prefix_split _ _ H) as (rest & ->).
  unfold is_task_request, components_url. simpl.
  rewrite append_assoc_s.
  exact (tasks_not_components config (("?repository=" ++ repository) ++ rest)).
Qed.

Lemma tasks_url_is_task (config : Config) :
  is_task_request config (Get (tasks_url config)) = true.
Proof.
  unfold is_task_request. simpl.
  rewrite <- (append_nil_r (tasks_url config)) at 2. apply prefix_refl_append.
Qed.

Lemma task_run_url_is_task (config : Config) (i : string) :
  is_task_request config (Post (task_run_url config i) EmptyObject) = true.
Proof.
  unfold is_task_request, task_run_url, tasks_url, request_url.
  rewrite prefix_append_same. reflexivity.
Qed.

Lemma reconcile_requests_not_task (w : World) (config : Config) (repository : string)
  (components : list Component) (actualFilePath : string) (fileData : list Byte.byte) :
  Forall (fun r => is_task_request config r = false)
    (reconcile_requests w config repository components actualFilePath fileData).
Proof.
  unfold reconcile_requests. apply Forall_app. split.
  - apply Forall_forall. intros r H. apply in_map_iff in H.
    destruct H as (c & <- & _). apply delete_request_not_task.
  - destruct (existsb _ components); constructor;
      [apply upload_request_not_task | constructor].
Qed.

Lemma file_requests_not_task (w : World) (config : Config) (repository : string)
  (components : list Component) (filePath : string) :
  Forall (fun r => is_task_request config r = false)
    (file_requests w config repository components filePath).
Proof.
  unfold file_requests. destruct (readFile w (getActualFilePath w filePath)).
  - apply reconcile_requests_not_task.
  - constructor.
Qed.

(** [processSingleFile] on any file: it returns when the file is readable
    and throws, before any request, when it is not. *)
Lemma processSingleFile_grows (w : World) (config : Config)
  (repository filePath : string) (components : list Component) (st : State) :
  exists out st' l,
    processSingleFile w config repository filePath components st = (out, st') /\
    grows w st l st' /\
    core st' = core st /\
    map fst l = file_requests w config repository components filePath /\
    (out = Ret tt /\ readable w filePath = true \/
     exists e, out = Exc e /\ readable w filePath = false).
Proof.
  unfold file_requests, readable.
  destruct (readFile w (getActualFilePath w filePath)) as [fileData|e] eqn:HR.
  - destruct (processSingleFile_readable w config repository filePath components st HR)
      as (st' & l & E & G & C & R).
    exists (Ret tt), st', l.
    split; [exact E|]. split; [exact G|]. split; [exact C|].
    split; [exact R|]. left. split; reflexivity.
  - exists (Exc e), st, []. rewrite (processSingleFile_unreadable _ _ _ _ _ _ HR).
    split; [reflexivity|]. split; [apply grows_refl|].
    split; [reflexivity|]. split; [reflexivity|]. right. eauto.
Qed.

(** The loop over the [.deb] entries: every entry is reconciled in turn as
    long as the files can be read; what the registry answers to the
    deletions and uploads has no influence on that. *)
Lemma processDebFiles_grows (w : World) (config : Config)
  (repository uploadPath : string) (components : list Component)
  (debFiles : list string) :
  forall st : State,
  exists out st' l,
    processDebFiles w config repository uploadPath components debFiles st = (out, st') /\
    grows w st l st' /\
    core st' = core st /\
    Forall (fun r => is_task_request config r = false) (map fst l) /\
    out <> OutOfFuel /\
    (forallb (fun file => readable w (entry_path w uploadPath file)) debFiles = true ->
     out = Ret tt /\
     map fst l =
       flat_map (fun file => file_requests w config repository components
                               (entry_path w uploadPath file)) debFiles).
Proof.
  induction debFiles as [|file rest IH]; intros st; simpl.
  - exists (Ret tt), st, []. split; [reflexivity|]. split; [apply grows_refl|].
    split; [reflexivity|]. split; [constructor|]. split; [discriminate|]. auto.
  - fold (entry_path w uploadPath file). unfold bind.
    destruct (processSingleFile_grows w config repository
                (entry_path w uploadPath file) components st)
      as (out1 & st1 & l1 & E1 & G1 & C1 & R1 & [[-> HR] | (e & -> & HR)]);
      rewrite E1.
    + destruct (IH st1) as (out & st' & l & E & G & C & Q & NF & ALL).
      exists out, st', (l1 ++ l)%list. split; [exact E|].
      split; [exact (grows_trans G1 G)|]. split; [congruence|].
      split.
      { rewrite map_app. apply Forall_app. split; [|exact Q].
        rewrite R1. apply file_requests_not_task. }
      split; [exact NF|]. rewrite HR. simpl. intros H.
      destruct (ALL H) as [-> RR]. split; [reflexivity|].
      rewrite map_app, R1, RR. reflexivity.
    + exists (Exc e), st1, l1. split; [reflexivity|]. split; [exact G1|].
      split; [exact C1|]. split.
      { rewrite R1. apply file_requests_not_task. }
      split; [discriminate|]. rewrite HR. simpl. discriminate.
Qed.

Lemma grows_axios (w : World) (r : Request) (st st' : State) :
  is_delete r = false ->
  log st' = (log st ++ [(r, server w (log st) r)])%list ->
  hasDeletedComponent st' = hasDeletedComponent st ->
  grows w st [(r, server w (log st) r)] st'.
Proof.
  intros D L F. unfold grows. rewrite L, F. simpl.
  unfold delete_succeeded. simpl. rewrite D. simpl. rewrite orb_false_r.
  split; [reflexivity|]. split; [reflexivity|].
  constructor; [|constructor]. simpl. eauto.
Qed.

(** The rebuild routine never throws; it starts with the task listing and
    talks to the task endpoints only. *)
Lemma runRebuildAptMetadata_spec (w : World) (config : Config) (st : State) :
  exists b st' l rest,
    runRebuildAptMetadata w config st = (Ret b, st') /\
    grows w st l st' /\
    core st' = core st /\
    hasDeletedComponent st' = hasDeletedComponent st /\
    map fst l = Get (tasks_url config) :: rest /\
    Forall (fun r => is_task_request config r = true) (map fst l) /\
    existsb delete_succeeded l = false.
Proof.
  unfold runRebuildAptMetadata, try_catch, bind.
  set (r1 := Get (tasks_url config)).
  destruct (axios_spec w r1 st) as (st1 & E1 & L1 & F1 & C1). rewrite E1.
  pose proof (grows_axios w r1 st st1 eq_refl L1 F1) as G1.
  pose proof (tasks_url_is_task config) as T1. fold r1 in T1.
  assert (one : forall b,
    exists (b0 : bool) (st' : State) l rest,
      (Ret b, st1) = (Ret b0, st') /\ grows w st l st' /\ core st' = core st /\
      hasDeletedComponent st' = hasDeletedComponent st /\
      map fst l = r1 :: rest /\
      Forall (fun r => is_task_request config r = true) (map fst l) /\
      existsb delete_succeeded l = false).
  { intros b. exists b, st1, [(r1, server w (log st) r1)], [].
    split; [reflexivity|]. split; [exact G1|]. split; [exact C1|].
    split; [exact F1|]. split; [reflexivity|].
    split; [constructor; [exact T1 | constructor] | reflexivity]. }
  destruct (server w (log st) r1) as [tasksResponse|e]; [|apply one].
  destruct (negb (Z.eqb (status tasksResponse) 200)); [apply one|].
  destruct (data_items tasksResponse) as [tasks|]; [|apply one].
  destruct (find is_apt_rebuild tasks) as [aptTask|]; [|apply one].
  clear one.
  set (r2 := Post (task_run_url config (item_id aptTask)) EmptyObject).
  destruct (axios_spec w r2 st1) as (st2 & E2 & L2 & F2 & C2). rewrite E2.
  pose proof (grows_axios w r2 st1 st2 eq_refl L2 F2) as G2.
  pose proof (task_run_url_is_task config (item_id aptTask)) as T2. fold r2 in T2.
  pose proof (grows_trans G1 G2) as G.
  assert (two : forall b,
    exists (b0 : bool) (st' : State) l rest,
      (Ret b, st2) = (Ret b0, st') /\ grows w st l st' /\ core st' = core st /\
      hasDeletedComponent st' = hasDeletedComponent st /\
      map fst l = r1 :: rest /\
      Forall (fun r => is_task_request config r = true) (map fst l) /\
      existsb delete_succeeded l = false).
  { intros b. eexists b, st2, _, [r2].
    split; [reflexivity|]. split; [exact G|]. split; [congruence|].
    split; [congruence|]. split; [reflexivity|].
    split; [constructor; [exact T1 | constructor; [exact T2 | constructor]]
           | reflexivity]. }
  destruct (server w (log st1) r2) as [runResponse|e]; [|apply two].
  destruct (Z.eqb (status runResponse) 204); apply two.
Qed.

(** From [statAsync] to the end of the branch: no task endpoint is
    touched, and the branch either completes, reports an invalid target,
    or throws. *)
Lemma reconcile_target_spec (w : World) (config : Config)
  (repository uploadPath : string) (components : list Component) (st : State) :
  exists out st' l,
    reconcile_target w config repository uploadPath components st = (out, st') /\
    grows w st l st' /\
    Forall (fun r => is_task_request config r = false) (map fst l) /\
    match out with
    | Ret true => core st' = core st
    | Ret false => exists e, core st' = (core st ++ [SetFailed e])%list
    | Exc _ => core st' = core st
    | OutOfFuel => False
    end.
Proof.
  unfold reconcile_target, bind, await.
  destruct (stat w uploadPath) as [[| |]|e]; simpl.
  - destruct (is_deb uploadPath); simpl.
    + destruct (processSingleFile_grows w config repository uploadPath components st)
        as (out1 & st1 & l1 & E1 & G1 & C1 & R1 & [[-> HR] | (e & -> & HR)]);
        rewrite E1; simpl; eexists _, st1, l1;
        (split; [reflexivity|]); (split; [exact G1|]);
        (split; [rewrite R1; apply file_requests_not_task | exact C1]).
    + eexists _, _, []. split; [reflexivity|].
      split; [unfold grows; simpl; rewrite app_nil_r, orb_false_r; auto|].
      split; [constructor|]. simpl. eauto.
  - destruct (readdir w uploadPath) as [files|e]; simpl.
    + destruct (processDebFiles_grows w config repository uploadPath components
                  (filter is_deb files) st)
        as (out1 & st1 & l1 & E1 & G1 & C1 & Q1 & NF & _).
      rewrite E1. destruct out1 as [[]|e|]; simpl; [| |congruence];
        eexists _, st1, l1; (split; [reflexivity|]); (split; [exact G1|]);
        (split; [exact Q1 | exact C1]).
    + eexists _, st, []. split; [reflexivity|]. split; [apply grows_refl|].
      split; [constructor | reflexivity].
  - eexists _, _, []. split; [reflexivity|].
    split; [unfold grows; simpl; rewrite app_nil_r, orb_false_r; auto|].
    split; [constructor|]. simpl. eauto.
  - eexists _, st, []. split; [reflexivity|]. split; [apply grows_refl|].
    split; [constructor | reflexivity].
Qed.

(** The end of the [try] block: the rebuild routine runs exactly when the
    flag is up, then the success output is written. *)
Lemma conclude_spec (w : World) (config : Config) (completed : bool) (st : State) :
  exists st' l,
    conclude w config completed st = (Ret tt, st') /\
    grows w st l st' /\
    Forall (fun r => is_task_request config r = true) (map fst l) /\
    existsb delete_succeeded l = false /\
    (completed = false -> l = [] /\ core st' = core st) /\
    (completed = true ->
     core st' = (core st ++ [SetOutput "result" "上传成功"])%list /\
     (hasDeletedComponent st = true ->
      exists rest, map fst l = Get (tasks_url config) :: rest) /\
     (hasDeletedComponent st = false -> l = [])).
Proof.
  unfold conclude. destruct completed.
  - unfold bind, get_hasDeletedComponent.
    destruct (hasDeletedComponent st) eqn:EF.
    + destruct (runRebuildAptMetadata_spec w config st)
        as (b & st1 & l & rest & E & G & C & F & R & Q & D).
      rewrite E. simpl. eexists _, l. split; [reflexivity|].
      split.
      { destruct G as (L & F' & A). unfold grows. simpl. auto. }
      split; [exact Q|]. split; [exact D|]. split; [discriminate|].
      intros _. simpl. rewrite C. split; [reflexivity|].
      split; [eauto | discriminate].
    + simpl. eexists _, []. split; [reflexivity|].
      split; [unfold grows; simpl; rewrite app_nil_r, EF; auto|].
      split; [constructor|]. split; [reflexivity|]. split; [discriminate|].
      intros _. simpl. split; [reflexivity|]. split; [discriminate | reflexivity].
  - exists st, []. split; [reflexivity|]. split; [apply grows_refl|].
    split; [constructor|]. split; [reflexivity|]. split; [auto | discriminate].
Qed.

Lemma grows_add_core (w : World) (st st' : State) (l : list Exchange) (c : CoreCall) :
  grows w st l st' -> grows w st l (add_core st' c).
Proof. intros H. exact H. Qed.

(** The shape of every run whose inputs are supplied: first exchanges
    [l12] that touch no task endpoint, then exchanges [l3] with the task
    endpoints only; [l3] is not empty only if the flag was up after [l12],
    and is not empty if the run got to its end with the flag up. *)
Lemma run_structure (fuel : nat) (w : World)
  (repository uploadPath nexusUrl nexusUser nexusPassword : string) (st : State) :
  inputs_are w repository uploadPath nexusUrl nexusUser nexusPassword ->
  let config := config_of w nexusUrl nexusUser nexusPassword in
  exists out st' l12 l3,
    run fuel w st = (out, st') /\
    grows w st (l12 ++ l3) st' /\
    Forall (fun r => is_task_request config r = false) (map fst l12) /\
    Forall (fun r => is_task_request config r = true) (map fst l3) /\
    existsb delete_succeeded l3 = false /\
    (l3 <> [] ->
     hasDeletedComponent st || existsb delete_succeeded l12 = true /\
     exists rest, map fst l3 = Get (tasks_url config) :: rest) /\
    (core st' = core st /\ l3 = [] /\ out = OutOfFuel \/
     (exists e, core st' = (core st ++ [SetFailed e])%list) /\ l3 = [] /\ out = Ret tt \/
     core st' = (core st ++ [SetOutput "result" "上传成功"])%list /\ out = Ret tt /\
     (hasDeletedComponent st || existsb delete_succeeded l12 = true -> l3 <> [])).
Proof.
  intros HI config. rewrite (run_phases fuel st HI). fold config.
  destruct (getComponents_grows w config repository fuel st)
    as (out1 & st1 & l1 & E1 & G1 & C1 & F1 & Q1).
  rewrite E1.
  assert (N1 : Forall (fun r => is_task_request config r = false) (map fst l1)).
  { eapply Forall_impl; [|exact Q1]. intros r.
    apply listing_request_not_task. }
  destruct out1 as [components|e|].
  - destruct (reconcile_target_spec w config repository uploadPath components st1)
      as (out2 & st2 & l2 & E2 & G2 & N2 & K2).
    rewrite E2. pose proof (grows_trans G1 G2) as G12.
    assert (N12 : Forall (fun r => is_task_request config r = false)
                    (map fst (l1 ++ l2))).
    { rewrite map_app. apply Forall_app. auto. }
    destruct out2 as [[|]|e|]; [| | |contradiction].
    + destruct (conclude_spec w config true st2)
        as (st3 & l3 & E3 & G3 & T3 & D3 & _ & K3).
      destruct (K3 eq_refl) as (C3 & UP & DOWN). rewrite E3.
      assert (F2 : hasDeletedComponent st2 =
                   hasDeletedComponent st || existsb delete_succeeded (l1 ++ l2))
        by apply G12.
      exists (Ret tt), st3, (l1 ++ l2)%list, l3.
      split; [reflexivity|]. split; [exact (grows_trans G12 G3)|].
      split; [exact N12|]. split; [exact T3|]. split; [exact D3|].
      split.
      { intros NE. destruct (hasDeletedComponent st2) eqn:EF.
        - split; [symmetry; exact F2 | apply UP; reflexivity].
        - elim NE. apply DOWN. reflexivity. }
      right. right. split; [congruence|]. split; [reflexivity|].
      intros H. rewrite <- F2 in H. destruct (UP H) as (rest & R).
      intros ->. discriminate R.
    + destruct K2 as (e & K2). simpl.
      exists (Ret tt), st2, (l1 ++ l2)%list, [].
      split; [reflexivity|]. rewrite app_nil_r. split; [exact G12|].
      split; [exact N12|]. split; [constructor|]. split; [reflexivity|].
      split; [intros NE; elim NE; reflexivity|].
      right. left. split; [exists e; congruence | auto].
    + exists (Ret tt), (add_core st2 (SetFailed e)), (l1 ++ l2)%list, [].
      split; [reflexivity|]. rewrite app_nil_r.
      split; [apply grows_add_core; exact G12|].
      split; [exact N12|]. split; [constructor|]. split; [reflexivity|].
      split; [intros NE; elim NE; reflexivity|].
      right. left. split; [exists e; simpl; congruence | auto].
  - exists (Ret tt), (add_core st1 (SetFailed e)), l1, [].
    split; [reflexivity|]. rewrite app_nil_r.
    split; [apply grows_add_core; exact G1|].
    split; [exact N1|]. split; [constructor|]. split; [reflexivity|].
    split; [intros NE; elim NE; reflexivity|].
    right. left. split; [exists e; simpl; congruence | auto].
  - exists OutOfFuel, st1, l1, [].
    split; [reflexivity|]. rewrite app_nil_r. split; [exact G1|].
    split; [exact N1|]. split; [constructor|]. split; [reflexivity|].
    split; [intros NE; elim NE; reflexivity|].
    left. auto.
Qed.

(** Every run, with or without its inputs, only adds exchanges to the
    log and raises the flag by accepted DELETEs. *)
Lemma run_grows (fuel : nat) (w : World) (st : State) :
  exists l, grows w st l (snd (run fuel w st)).
Proof.
  assert (early : forall c, grows w st [] (add_core st c)).
  { intros c. apply grows_add_core, grows_refl. }
  destruct (getInput w "repository") as [repository|e1] eqn:I1;
    [|exists []; unfold run, try_catch, bind, await; rewrite I1; apply early].
  destruct (getInput w "path") as [uploadPath|e2] eqn:I2;
    [|exists []; unfold run, try_catch, bind, await; rewrite I1, I2; apply early].
  destruct (getInput w "nexus_url") as [nexusUrl|e3] eqn:I3;
    [|exists []; unfold run, try_catch, bind, await; rewrite I1, I2, I3;
      apply early].
  destruct (getInput w "nexus_user") as [nexusUser|e4] eqn:I4;
    [|exists []; unfold run, try_catch, bind, await; rewrite I1, I2, I3, I4;
      apply early].
  destruct (getInput w "nexus_password") as [nexusPassword|e5] eqn:I5;
    [|exists []; unfold run, try_catch, bind, await;
      rewrite I1, I2, I3, I4, I5; apply early].
  destruct (@run_structure fuel w repository uploadPath nexusUrl nexusUser
              nexusPassword st (conj I1 (conj I2 (conj I3 (conj I4 I5)))))
    as (out & st' & l12 & l3 & E & G & _).
  rewrite E. exists (l12 ++ l3)%list. exact G.
Qed.

(* ------------------------------------------------------------------ *)
(** ** Reading the log *)

Lemma grows_flag_kept (w : World) (st st' : State) (l : list Exchange) :
  grows w st l st' -> hasDeletedComponent st = true ->
  hasDeletedComponent st' = true.
Proof. intros (_ & F & _) H. rewrite F, H. reflexivity. Qed.

Lemma existsb_all_false {A} (f : A -> bool) (l : list A) :
  Forall (fun x => f x = false) l -> existsb f l = false.
Proof.
  induction 1 as [|x l Hx _ IH]; simpl; [reflexivity|]. rewrite Hx, IH. reflexivity.
Qed.

Lemma existsb_false_all {A} (f : A -> bool) (l : list A) :
  existsb f l = false -> Forall (fun x => f x = false) l.
Proof.
  induction l as [|x l IH]; simpl; intros H; constructor;
    apply orb_false_iff in H; destruct H; auto.
Qed.

Lemma succeeded_delete_is_delete (l : list Exchange) :
  existsb delete_succeeded l = true -> existsb is_delete (map fst l) = true.
Proof.
  induction l as [|e l IH]; simpl; [discriminate|].
  unfold delete_succeeded at 1. intros H. apply orb_true_iff in H.
  destruct H as [H|H].
  - apply andb_true_iff in H. destruct H as [H _]. rewrite H. reflexivity.
  - rewrite (IH H). apply orb_true_r.
Qed.

(** On a registry that accepts no DELETE, no exchange of a run is a
    deletion that succeeded. *)
Lemma no_delete_accepted (w : World) (l : list Exchange) :
  (forall history url, accepted (server w history (Delete url)) = false) ->
  Forall (fun e => exists history, server w history (fst e) = snd e) l ->
  existsb delete_succeeded l = false.
Proof.
  intros NO H. apply existsb_all_false.
  eapply Forall_impl; [|exact H]. intros [r a] (history & E). simpl in E.
  unfold delete_succeeded. simpl. destruct r as [|url|]; simpl; try reflexivity.
  rewrite <- E. apply NO.
Qed.

(* ------------------------------------------------------------------ *)
(** ** Reconciliation: what is issued for one file *)

Lemma processSingleFile_issued (w : World) (config : Config)
  (repository filePath : string) (components : list Component) (st : State)
  (fileData : list Byte.byte) :
  readFile w (getActualFilePath w filePath) = Success fileData ->
  exists st',
    processSingleFile w config repository filePath components st = (Ret tt, st') /\
    requests st' =
      (requests st ++
       reconcile_requests w config repository components
         (getActualFilePath w filePath) fileData)%list.
Proof.
  intros HR.
  destruct (processSingleFile_readable w config repository filePath components st HR)
    as (st' & l & E & G & _ & R).
  exists st'. split; [exact E|]. rewrite (grows_requests G), R. reflexivity.
Qed.

Lemma reconcile_requests_partition (w : World) (config : Config) (repository : string)
  (components : list Component) (actualFilePath : string) (fileData : list Byte.byte) :
  let issued :=
    reconcile_requests w config repository components actualFilePath fileData in
  issued = (filter is_delete issued ++ filter is_upload issued)%list.
Proof.
  intros issued. subst issued.
  rewrite deletes_in_reconcile, upload_in_reconcile. reflexivity.
Qed.

(* ------------------------------------------------------------------ *)
(** * The claims *)

Unset Implicit Arguments.

(** C3: reconciling a readable file issues, in inventory order, one DELETE
    for every matching record whose fingerprint differs from the file's
    (a record without checksum among them) and none for a matching record
    with the file's fingerprint, and then uploads the file if and only if
    no matching record has the file's fingerprint. *)
Theorem C3_decision_policy (w : World) (config : Config)
  (repository filePath : string) (components : list Component) (st : State)
  (fileData : list Byte.byte) :
  let actualFilePath := getActualFilePath w filePath in
  let fileInfo := getDebInfoWithDpkg w actualFilePath in
  let fileSha256 := generateSHA256 w fileData in
  readFile w actualFilePath = Success fileData ->
  exists st' issued,
    processSingleFile w config repository filePath components st = (Ret tt, st') /\
    requests st' = (requests st ++ issued)%list /\
    issued = (filter is_delete issued ++ filter is_upload issued)%list /\
    filter is_delete issued =
      map (delete_request config)
        (filter (fun comp => matches comp fileInfo
                             && negb (String.eqb (sha256 comp) fileSha256))
           components) /\
    filter is_upload issued =
      (if existsb (fun comp => matches comp fileInfo
                               && String.eqb (sha256 comp) fileSha256)
            components
       then []
       else [upload_request w config repository actualFilePath fileData]) /\
    (forall item,
       In (component_of_item item) components ->
       matches (component_of_item item) fileInfo = true ->
       recorded_checksum item = None ->
       In (delete_request config (component_of_item item)) issued).
Proof.
  intros actualFilePath fileInfo fileSha256 HR.
  destruct (processSingleFile_issued w config repository filePath components st HR)
    as (st' & E & R).
  exists st', (reconcile_requests w config repository components actualFilePath fileData).
  split; [exact E|]. split; [exact R|].
  split; [apply reconcile_requests_partition|].
  split; [apply deletes_in_reconcile|].
  split; [apply upload_in_reconcile|].
  intros item HI HM HA. unfold reconcile_requests.
  apply in_stale_deleted; try assumption.
  apply (no_checksum_never_current w item fileData). exact HA.
Qed.

Lemma C3_witness :
  readFile Example.foo_world
    (getActualFilePath Example.foo_world "foo_1.0.0_amd64.deb")
  = Success Example.abc123 /\
  exists st' issued,
    processSingleFile Example.foo_world Example.config "apt-hosted"
      "foo_1.0.0_amd64.deb"
      [Example.foo_stale; component_of_item Example.foo_unsigned;
       Example.bar_current] initial
    = (Ret tt, st') /\
    requests st' = (requests initial ++ issued)%list /\
    filter is_delete issued =
      [Delete "http://nexus/service/rest/v1/components/id2";
       Delete "http://nexus/service/rest/v1/components/id3"] /\
    List.length (filter is_upload issued) = 1.
Proof.
  split; [reflexivity|].
  destruct (C3_decision_policy Example.foo_world Example.config "apt-hosted"
              "foo_1.0.0_amd64.deb"
              [Example.foo_stale; component_of_item Example.foo_unsigned;
               Example.bar_current]
              initial Example.abc123 eq_refl)
    as (st' & issued & E & R & _ & D & U & _).
  exists st', issued. split; [exact E|]. split; [exact R|].
  split; [rewrite D; reflexivity | rewrite U; reflexivity].
Defined.



(** C7 as stated fails: the file [foo_1.0.0_amd64.deb] matches the record
    [foo_current] in name, group, version and fingerprint, and
    reconciling it still issues a DELETE, for the second record of the
    same package whose fingerprint differs. *)
Lemma C7_counterexample :
  let fileInfo :=
    getDebInfoWithDpkg Example.foo_world
      (getActualFilePath Example.foo_world "foo_1.0.0_amd64.deb") in
  let st' :=
    snd (processSingleFile Example.foo_world Example.config "apt-hosted"
           "foo_1.0.0_amd64.deb" [Example.foo_current; Example.foo_stale] initial) in
  name Example.foo_current = fi_name fileInfo /\
  group Example.foo_current = fi_group fileInfo /\
  version Example.foo_current = fi_version fileInfo /\
  sha256 Example.foo_current = generateSHA256 Example.foo_world Example.abc123 /\
  requests st' = [Delete "http://nexus/service/rest/v1/components/id2"].
Proof. vm_compute. repeat split. Qed.

(** C7, amended: when a record of the inventory agrees with the file in
    name, group, version and fingerprint, reconciling the file issues no
    upload; the only requests are the DELETEs of the other matching
    records whose fingerprint differs, so that nothing at all is issued
    when every matching record carries the file's fingerprint. *)
Theorem C7_synced_file_is_not_uploaded (w : World) (config : Config)
  (repository filePath : string) (components : list Component) (st : State)
  (fileData : list Byte.byte) (comp : Component) :
  let actualFilePath := getActualFilePath w filePath in
  let fileInfo := getDebInfoWithDpkg w actualFilePath in
  let fileSha256 := generateSHA256 w fileData in
  readFile w actualFilePath = Success fileData ->
  In comp components ->
  name comp = fi_name fileInfo ->
  group comp = fi_group fileInfo ->
  version comp = fi_version fileInfo ->
  sha256 comp = fileSha256 ->
  exists st',
    processSingleFile w config repository filePath components st = (Ret tt, st') /\
    requests st' =
      (requests st ++
       map (delete_request config)
         (filter (fun c => matches c fileInfo
                           && negb (String.eqb (sha256 c) fileSha256))
            components))%list /\
    ((forall c, In c components -> matches c fileInfo = true ->
                sha256 c = fileSha256) ->
     requests st' = requests st).
Proof.
  intros actualFilePath fileInfo fileSha256 HR HI HN HG HV HS.
  destruct (processSingleFile_issued w config repository filePath components st HR)
    as (st' & E & R).
  exists st'. split; [exact E|].
  assert (HC : existsb (current fileInfo fileSha256) components = true).
  { apply existsb_current_iff. exists comp. split; [exact HI|].
    split; [apply matches_spec; auto | exact HS]. }
  unfold reconcile_requests in R. fold actualFilePath fileInfo fileSha256 in R.
  rewrite HC, app_nil_r in R. split; [exact R|].
  intros ALL. rewrite R.
  assert (EF : filter (stale fileInfo fileSha256) components = []).
  { clear -ALL. induction components as [|c rest IH]; [reflexivity|]. simpl.
    unfold stale at 1. destruct (matches c fileInfo) eqn:EM; simpl.
    - rewrite (ALL c (or_introl eq_refl) EM), String.eqb_refl. simpl.
      apply IH. intros c' H. apply ALL. right. exact H.
    - apply IH. intros c' H. apply ALL. right. exact H. }
  rewrite EF. simpl. apply app_nil_r.
Qed.

Lemma C7_witness :
  readFile Example.foo_world
    (getActualFilePath Example.foo_world "foo_1.0.0_amd64.deb")
  = Success Example.abc123 /\
  exists st',
    processSingleFile Example.foo_world Example.config "apt-hosted"
      "foo_1.0.0_amd64.deb" [Example.bar_current; Example.foo_current] initial
    = (Ret tt, st') /\
    requests st' = requests initial.
Proof.
  split; [reflexivity|].
  destruct (C7_synced_file_is_not_uploaded Example.foo_world Example.config
              "apt-hosted" "foo_1.0.0_amd64.deb"
              [Example.bar_current; Example.foo_current] initial
              Example.abc123 Example.foo_current
              eq_refl (or_intror (or_introl eq_refl))
              eq_refl eq_refl eq_refl eq_refl)
    as (st' & E & _ & R).
  exists st'. split; [exact E|]. apply R.
  intros c [<- | [<- | []]]; [discriminate | reflexivity].
Defined.

(** C8: for a readable file that matches no record of the inventory,
    reconciliation issues exactly one request, the upload of the file;
    hence one upload and no DELETE. *)
Theorem C8_unmatched_file_is_uploaded_once (w : World) (config : Config)
  (repository filePath : string) (components : list Component) (st : State)
  (fileData : list Byte.byte) :
  let actualFilePath := getActualFilePath w filePath in
  let fileInfo := getDebInfoWithDpkg w actualFilePath in
  readFile w actualFilePath = Success fileData ->
  (forall comp, In comp components -> matches comp fileInfo = false) ->
  exists st' issued,
    processSingleFile w config repository filePath components st = (Ret tt, st') /\
    requests st' = (requests st ++ issued)%list /\
    issued = [upload_request w config repository actualFilePath fileData] /\
    List.length (filter is_upload issued) = 1 /\
    List.length (filter is_delete issued) = 0.
Proof.
  intros actualFilePath fileInfo HR NONE.
  destruct (processSingleFile_issued w config repository filePath components st HR)
    as (st' & E & R).
  exists st', [upload_request w config repository actualFilePath fileData].
  split; [exact E|]. split; [|repeat split].
  rewrite R. f_equal. unfold reconcile_requests.
  fold actualFilePath. fold fileInfo.
  set (fileSha256 := generateSHA256 w fileData).
  assert (EF : filter (stale fileInfo fileSha256) components = []).
  { clear -NONE. induction components as [|c rest IH]; [reflexivity|]. simpl.
    unfold stale at 1. rewrite (NONE c (or_introl eq_refl)). simpl.
    apply IH. intros c' H. apply NONE. right. exact H. }
  assert (EC : existsb (current fileInfo fileSha256) components = false).
  { clear -NONE. induction components as [|c rest IH]; [reflexivity|]. simpl.
    unfold current at 1. rewrite (NONE c (or_introl eq_refl)). simpl.
    apply IH. intros c' H. apply NONE. right. exact H. }
  rewrite EF, EC. reflexivity.
Qed.

Lemma C8_witness :
  readFile Example.foo_world
    (getActualFilePath Example.foo_world "foo_1.0.0_amd64.deb")
  = Success Example.abc123 /\
  exists st' issued,
    processSingleFile Example.foo_world Example.config "apt-hosted"
      "foo_1.0.0_amd64.deb" [Example.bar_current] initial
    = (Ret tt, st') /\
    requests st' = (requests initial ++ issued)%list /\
    List.length (filter is_upload issued) = 1 /\
    List.length (filter is_delete issued) = 0.
Proof.
  split; [reflexivity|].
  destruct (C8_unmatched_file_is_uploaded_once Example.foo_world Example.config
              "apt-hosted" "foo_1.0.0_amd64.deb" [Example.bar_current] initial
              Example.abc123 eq_refl)
    as (st' & issued & E & R & _ & U & D).
  - intros comp [<- | []]. reflexivity.
  - exists st', issued. auto.
Defined.

(* ------------------------------------------------------------------ *)
(** ** The descriptor taken from the file name *)

(** C10 as stated fails: the base name of [a_.deb] has exactly one
    underscore and its two parts are ["a"] and the empty string, but the
    extracted group is the placeholder ["-"], not the second part, so the
    descriptor carries the wildcard group. *)
Lemma C10_counterexample :
  let P := Posix.path "/home/runner/work" in
  let info := extractInfoFromFilename P "a_.deb" in
  Path.basename_ext P "a_.deb" ".deb" = "a" ++ "_" ++ "" /\
  fi_name info = "a" /\
  fi_group info <> "" /\
  fi_group info = "-".
Proof. vm_compute. repeat split. discriminate. Qed.

(** C10, amended: for a base name without underscore the version is
    ["-"] and name and group are both the base name, or both ["-"] when
    the base name is empty; for a base name with exactly one underscore
    the version is ["-"] and name and group are the two parts, an empty
    part being replaced by ["-"].  The group is therefore different from
    the wildcard ["-"] exactly when the last part is neither empty nor
    ["-"] itself. *)
Theorem C10_filename_fallback (P : Path.Lib) (filename : string) :
  let b := Path.basename_ext P filename ".deb" in
  let info := extractInfoFromFilename P filename in
  (contains "_" b = false ->
   fi_version info = "-" /\
   (b <> "" -> fi_name info = b /\ fi_group info = b) /\
   (b = "" -> fi_name info = "-" /\ fi_group info = "-") /\
   (fi_group info <> "-" <-> b <> "" /\ b <> "-")) /\
  (forall p q,
     b = p ++ "_" ++ q -> contains "_" p = false -> contains "_" q = false ->
     fi_version info = "-" /\
     fi_name info = (if String.eqb p "" then "-" else p) /\
     fi_group info = (if String.eqb q "" then "-" else q) /\
     (fi_group info <> "-" <-> q <> "" /\ q <> "-")).
Proof.
  intros b info. split.
  - intros H. subst info. rewrite (extractInfo_no_underscore P filename H).
    fold b. simpl. destruct (String.eqb_spec b "") as [E|N].
    + split; [reflexivity|]. split; [intros C; contradiction|].
      split; [auto|]. split; [intros C; contradiction | intros [C _]; contradiction].
    + split; [reflexivity|]. split; [auto|].
      split; [intros C; contradiction|]. tauto.
  - intros p q E Hp Hq. subst info.
    rewrite (extractInfo_one_underscore P filename p q E Hp Hq). simpl.
    split; [reflexivity|]. split; [reflexivity|]. split; [reflexivity|].
    destruct (String.eqb_spec q "") as [EQ|N].
    + split; [intros C; contradiction | intros [C _]; contradiction].
    + tauto.
Qed.

Lemma C10_witness :
  let P := Posix.path "/home/runner/work" in
  let info := extractInfoFromFilename P "dist/foo_amd64.deb" in
  Path.basename_ext P "dist/foo_amd64.deb" ".deb" = "foo" ++ "_" ++ "amd64" /\
  contains "_" "foo" = false /\ contains "_" "amd64" = false /\
  fi_version info = "-" /\ fi_name info = "foo" /\ fi_group info = "amd64".
Proof.
  intros P info. split; [reflexivity|]. split; [reflexivity|].
  split; [reflexivity|].
  destruct (proj2 (C10_filename_fallback P "dist/foo_amd64.deb")
              "foo" "amd64" eq_refl eq_refl eq_refl) as (V & N & G & _).
  split; [exact V|]. split; [exact N | exact G].
Defined.

(* ------------------------------------------------------------------ *)
(** ** Pagination *)



(* ------------------------------------------------------------------ *)
(** ** The run as a whole *)




(** C2 as stated fails: with the single file [readme.txt] as target, the
    run does report the invalid input, but only after it has requested the
    inventory listing from the registry. *)
Lemma C2_counterexample :
  let w := Example.readme_world in
  let st' := snd (run 1 w initial) in
  stat w "readme.txt" = Success IsFile /\
  is_deb "readme.txt" = false /\
  requests st' =
    [Get "http://nexus/service/rest/v1/components?repository=apt-hosted"] /\
  core st' = [SetFailed (not_deb_message "readme.txt")].
Proof. vm_compute. repeat split. Qed.

(** C2, amended: when the target is a single file whose name does not end
    in [.deb], the only registry requests of the run are the page requests
    of the inventory listing (no DELETE, no upload and no task call is
    ever issued); and once the listing has returned, the run stops with
    the invalid-input failure and issues nothing more. *)
Theorem C2_non_deb_single_file (fuel : nat) (w : World)
  (repository uploadPath nexusUrl nexusUser nexusPassword : string) :
  let config := config_of w nexusUrl nexusUser nexusPassword in
  inputs_are w repository uploadPath nexusUrl nexusUser nexusPassword ->
  stat w uploadPath = Success IsFile ->
  is_deb uploadPath = false ->
  Forall (fun r => is_listing_request config repository r = true /\
                   is_delete r = false /\ is_upload r = false /\
                   is_task_request config r = false)
    (requests (snd (run fuel w initial))) /\
  (forall components st1,
     getComponents fuel w config repository initial = (Ret components, st1) ->
     run fuel w initial =
       (Ret tt, add_core st1 (SetFailed (not_deb_message uploadPath))) /\
     core (add_core st1 (SetFailed (not_deb_message uploadPath)))
     = [SetFailed (not_deb_message uploadPath)]).
Proof.
  intros config HI HS HD.
  assert (listing : forall r, is_listing_request config repository r = true ->
            is_listing_request config repository r = true /\
            is_delete r = false /\ is_upload r = false /\
            is_task_request config r = false).
  { intros r H. split; [exact H|].
    split; [destruct r; simpl in *; congruence|].
    split; [destruct r; simpl in *; congruence|].
    exact (listing_request_not_task _ _ _ H). }
  rewrite (run_phases fuel initial HI). fold config.
  destruct (getComponents_grows w config repository fuel initial)
    as (out1 & st1 & l1 & E1 & G1 & C1 & _ & Q1).
  rewrite E1.
  assert (R1 : requests st1 = map fst l1) by (rewrite (grows_requests G1); reflexivity).
  assert (ALL : Forall (fun r => is_listing_request config repository r = true /\
                   is_delete r = false /\ is_upload r = false /\
                   is_task_request config r = false) (requests st1)).
  { rewrite R1. eapply Forall_impl; [|exact Q1]. exact listing. }
  assert (TARGET : forall components,
            reconcile_target w config repository uploadPath components st1
            = (Ret false, add_core st1 (SetFailed (not_deb_message uploadPath)))).
  { intros components. unfold reconcile_target, bind, await.
    rewrite HS. simpl. rewrite HD. reflexivity. }
  destruct out1 as [components|e|]; simpl.
  - rewrite TARGET. simpl. split; [exact ALL|].
    intros components' st1' E. injection E as <- <-. split; [reflexivity|].
    simpl. rewrite C1. reflexivity.
  - split; [exact ALL | intros ? ? E; discriminate E].
  - split; [exact ALL | intros ? ? E; discriminate E].
Qed.

Lemma C2_witness :
  let w := Example.readme_world in
  inputs_are w "apt-hosted" "readme.txt" "http://nexus" "admin" "admin123" /\
  stat w "readme.txt" = Success IsFile /\
  is_deb "readme.txt" = false /\
  Forall (fun r => is_delete r = false /\ is_upload r = false)
    (requests (snd (run 1 w initial))).
Proof.
  intros w.
  assert (HI : inputs_are w "apt-hosted" "readme.txt" "http://nexus" "admin" "admin123")
    by (repeat split).
  split; [exact HI|]. split; [reflexivity|]. split; [reflexivity|].
  eapply Forall_impl;
    [|exact (proj1 (C2_non_deb_single_file 1 w "apt-hosted" "readme.txt"
                      "http://nexus" "admin" "admin123" HI eq_refl eq_refl))].
  intros r (_ & D & U & _). auto.
Defined.

(** C6 as stated fails: in a directory whose first package replaces a
    stale record and whose second [.deb] entry is a dangling symbolic
    link, a component is deleted, the run then stops with the failure of
    reading the link's target, and no task endpoint is ever invoked. *)
Lemma C6_counterexample :
  let st' := snd (run 1 Example.broken_entry_world initial) in
  existsb delete_succeeded (log st') = true /\
  existsb (is_task_request Example.config) (requests st') = false /\
  requests st' =
    [Get "http://nexus/service/rest/v1/components?repository=apt-hosted";
     Delete "http://nexus/service/rest/v1/components/id2";
     Post "http://nexus/service/rest/v1/components?repository=apt-hosted"
       (FormData "foo_1.0.0_amd64.deb" Example.abc123)] /\
  core st' =
    [SetFailed ("ENOENT: no such file or directory "
                ++ "'/home/runner/work/build/gone_1_all.deb'")] /\
  reported_failure st' = true /\
  reported_success st' = false.
Proof. vm_compute. repeat split. Qed.

(** C6, amended: in every run, a task endpoint is invoked only if some
    DELETE was answered with status 204 before, so a run that issues no
    DELETE never invokes one; and in every run that gets through the
    processing of its artifacts and reports success, the rebuild routine
    is entered (the task listing is requested) if and only if some DELETE
    was answered with status 204. *)
Theorem C6_rebuild_after_deletion (fuel : nat) (w : World)
  (repository uploadPath nexusUrl nexusUser nexusPassword : string) :
  let config := config_of w nexusUrl nexusUser nexusPassword in
  let st' := snd (run fuel w initial) in
  inputs_are w repository uploadPath nexusUrl nexusUser nexusPassword ->
  (existsb (is_task_request config) (requests st') = true ->
   existsb delete_succeeded (log st') = true) /\
  (existsb is_delete (requests st') = false ->
   existsb (is_task_request config) (requests st') = false) /\
  (reported_success st' = true ->
   (In (Get (tasks_url config)) (requests st') <->
    existsb delete_succeeded (log st') = true)).
Proof.
  intros config st' HI. subst st'.
  destruct (run_structure fuel initial HI)
    as (out & st' & l12 & l3 & E & G & N12 & T3 & D3 & UP & FIN).
  fold config in N12, T3, UP. rewrite E. simpl.
  destruct G as (L & F & _). simpl in L, F, UP, FIN.
  assert (R : requests st' = (map fst l12 ++ map fst l3)%list)
    by (unfold requests; rewrite L, map_app; reflexivity).
  assert (TASK : existsb (is_task_request config) (requests st') = true ->
                 existsb delete_succeeded (log st') = true).
  { rewrite R, L, !existsb_app, (existsb_all_false _ N12), D3. simpl.
    intros H. destruct l3 as [|e l3]; [discriminate H|].
    destruct UP as [UP _]; [discriminate | rewrite UP; reflexivity]. }
  split; [exact TASK|]. split.
  - intros ND.
    destruct (existsb (is_task_request config) (requests st')) eqn:ET;
      [|reflexivity].
    pose proof (succeeded_delete_is_delete _ (TASK eq_refl)) as H.
    fold (requests st') in H. congruence.
  - intros OK. split.
    + intros HIn. apply TASK. apply existsb_exists.
      exists (Get (tasks_url config)). split; [exact HIn|].
      apply tasks_url_is_task.
    + rewrite L, existsb_app, D3, orb_false_r. intros HD.
      unfold reported_success in OK.
      destruct FIN as [(C & _) | [((e & C) & _) | (_ & _ & GO)]].
      * rewrite C in OK. discriminate OK.
      * rewrite C in OK. discriminate OK.
      * destruct l3 as [|e3 l3]; [elim (GO HD); reflexivity|].
        destruct UP as (_ & rest & RR); [discriminate|].
        rewrite R, RR. apply in_or_app. right. left. reflexivity.
Qed.

Lemma C6_witness :
  let w := Example.delete_failing_world in
  let st' := snd (run 1 w initial) in
  inputs_are w "apt-hosted" "dist" "http://nexus" "admin" "admin123" /\
  reported_success st' = true /\
  existsb delete_succeeded (log st') = false /\
  ~ In (Get (tasks_url Example.config)) (requests st').
Proof.
  intros w st'.
  assert (HI : inputs_are w "apt-hosted" "dist" "http://nexus" "admin" "admin123")
    by (repeat split).
  split; [exact HI|]. split; [reflexivity|]. split; [reflexivity|].
  intros HIn.
  pose proof (proj1 (proj2 (proj2 (C6_rebuild_after_deletion 1 w "apt-hosted"
                "dist" "http://nexus" "admin" "admin123" HI)) eq_refl) HIn) as H.
  discriminate H.
Defined.

(** C9: [deleteComponent] raises the flag exactly when axios resolves the
    DELETE with status 204 and leaves it as it is otherwise; no function
    of the program ever lowers the flag; at the end of a run the flag is
    up exactly if the log holds a DELETE answered with 204; and on a
    registry on which every DELETE fails, the flag stays down and no task
    endpoint is invoked. *)
Theorem C9_deletion_flag :
  (forall w config i st,
     let answer := server w (log st) (Delete (component_url config i)) in
     exists st',
       deleteComponent w config i st = (Ret (accepted answer), st') /\
       hasDeletedComponent st' = hasDeletedComponent st || accepted answer) /\
  (forall w config repository filePath components debFiles fuel st,
     hasDeletedComponent st = true ->
     (forall i, hasDeletedComponent (snd (deleteComponent w config i st)) = true) /\
     hasDeletedComponent (snd (uploadComponent w config repository filePath st)) = true /\
     hasDeletedComponent (snd (getComponents fuel w config repository st)) = true /\
     hasDeletedComponent
       (snd (processSingleFile w config repository filePath components st)) = true /\
     hasDeletedComponent
       (snd (processDebFiles w config repository filePath components debFiles st))
     = true /\
     hasDeletedComponent (snd (runRebuildAptMetadata w config st)) = true) /\
  (forall fuel w st,
     hasDeletedComponent st = true ->
     hasDeletedComponent (snd (run fuel w st)) = true) /\
  (forall fuel w,
     let st' := snd (run fuel w initial) in
     hasDeletedComponent st' = existsb delete_succeeded (log st')) /\
  (forall fuel w repository uploadPath nexusUrl nexusUser nexusPassword,
     inputs_are w repository uploadPath nexusUrl nexusUser nexusPassword ->
     (forall history url, accepted (server w history (Delete url)) = false) ->
     let config := config_of w nexusUrl nexusUser nexusPassword in
     let st' := snd (run fuel w initial) in
     hasDeletedComponent st' = false /\
     existsb (is_task_request config) (requests st') = false).
Proof.
  split; [|split; [|split; [|split]]].
  - intros w config i st answer.
    destruct (deleteComponent_spec w config i st) as (st' & E & _ & F & _).
    exists st'. auto.
  - intros w config repository filePath components debFiles fuel st H.
    split; [|split; [|split; [|split; [|split]]]].
    + intros i. destruct (deleteComponent_grows w config i st)
        as (b & st' & a & E & G & _). rewrite E. exact (grows_flag_kept G H).
    + destruct (uploadComponent_spec w config repository filePath st)
        as (b & st' & l & E & G & _). rewrite E. exact (grows_flag_kept G H).
    + destruct (getComponents_grows w config repository fuel st)
        as (out & st' & l & E & G & _). rewrite E. exact (grows_flag_kept G H).
    + destruct (processSingleFile_grows w config repository filePath components st)
        as (out & st' & l & E & G & _). rewrite E. exact (grows_flag_kept G H).
    + destruct (processDebFiles_grows w config repository filePath components
                  debFiles st) as (out & st' & l & E & G & _).
      rewrite E. exact (grows_flag_kept G H).
    + destruct (runRebuildAptMetadata_spec w config st)
        as (b & st' & l & rest & E & G & _). rewrite E. exact (grows_flag_kept G H).
  - intros fuel w st H.
    destruct (run_grows fuel w st) as (l & G). exact (grows_flag_kept G H).
  - intros fuel w st'. subst st'.
    destruct (run_grows fuel w initial) as (l & L & F & _).
    rewrite F, L. reflexivity.
  - intros fuel w repository uploadPath nexusUrl nexusUser nexusPassword HI NO
           config st'.
    subst st'.
    destruct (run_structure fuel initial HI)
      as (out & st' & l12 & l3 & E & G & N12 & T3 & D3 & UP & _).
    fold config in N12, T3, UP. rewrite E. simpl.
    destruct G as (L & F & A). simpl in L, F, UP.
    pose proof (no_delete_accepted w NO A) as ND.
    split; [rewrite F; exact ND|].
    rewrite existsb_app in ND. apply orb_false_iff in ND. destruct ND as [ND12 _].
    destruct l3 as [|e3 l3].
    + unfold requests. rewrite L, app_nil_r. apply existsb_all_false. exact N12.
    + destruct UP as [UP _]; [discriminate|]. rewrite ND12 in UP. discriminate UP.
Qed.

Lemma C9_witness :
  let w := Example.delete_failing_world in
  let st' := snd (run 1 w initial) in
  inputs_are w "apt-hosted" "dist" "http://nexus" "admin" "admin123" /\
  (forall history url, accepted (server w history (Delete url)) = false) /\
  existsb is_delete (requests st') = true /\
  hasDeletedComponent st' = false /\
  existsb (is_task_request Example.config) (requests st') = false.
Proof.
  intros w st'.
  assert (HI : inputs_are w "apt-hosted" "dist" "http://nexus" "admin" "admin123")
    by (repeat split).
  assert (NO : forall history url, accepted (server w history (Delete url)) = false)
    by reflexivity.
  split; [exact HI|]. split; [exact NO|]. split; [reflexivity|].
  exact (proj2 (proj2 (proj2 (proj2 C9_deletion_flag))) 1 w "apt-hosted" "dist"
           "http://nexus" "admin" "admin123" HI NO).
Defined.

(* ------------------------------------------------------------------ *)
(** * Further properties of the program *)

(** ** Descriptors *)

Lemma or_else_not_empty (x : option string) (d : string) :
  d <> "" -> or_else x d <> "".
Proof.
  intros Hd. destruct x as [s|]; simpl; [|exact Hd].
  destruct (String.eqb_spec s ""); assumption.
Qed.

Lemma truthy_some (s : string) : truthy (Some s) = true -> s <> "".
Proof.
  simpl. intros H E. subst s. discriminate H.
Qed.

(** X1: whichever way the descriptor of a file is obtained, from [dpkg] or
    from the file name, none of its three fields is the empty string. *)
Theorem X1_descriptor_fields_not_empty (w : World) (filePath : string) :
  let fileInfo := getDebInfoWithDpkg w filePath in
  fi_name fileInfo <> "" /\ fi_group fileInfo <> "" /\ fi_version fileInfo <> "".
Proof.
  assert (fallback : forall P f,
            fi_name (extractInfoFromFilename P f) <> "" /\
            fi_group (extractInfoFromFilename P f) <> "" /\
            fi_version (extractInfoFromFilename P f) <> "").
  { intros P f. unfold extractInfoFromFilename.
    cbn [fi_name fi_group fi_version].
    repeat split; apply or_else_not_empty; discriminate. }
  intros fileInfo. subst fileInfo. unfold getDebInfoWithDpkg.
  destruct (dpkg_I w filePath) as [stdout|e]; [|apply fallback].
  destruct (dpkg_Package stdout) as [n|]; [|apply fallback].
  destruct (dpkg_Version stdout) as [v|]; [|apply fallback].
  destruct (dpkg_Architecture stdout) as [a|]; [|apply fallback].
  destruct (truthy (Some n)) eqn:En; [|apply fallback].
  destruct (truthy (Some v)) eqn:Ev; [|apply fallback].
  destruct (truthy (Some a)) eqn:Ea; [|apply fallback].
  simpl. auto using truthy_some.
Qed.

Lemma split_not_nil (sep : ascii) (s : string) : split sep s <> [].
Proof.
  destruct s as [|c rest]; simpl; [discriminate|].
  destruct (Ascii.eqb c sep); [discriminate|].
  destruct (split sep rest); discriminate.
Qed.

(** Splitting at a separator and joining with it gives the string back. *)
Lemma join_split (sep : ascii) (s : string) :
  join (String sep "") (split sep s) = s.
Proof.
  induction s as [|c rest IH]; [reflexivity|]. simpl.
  pose proof (split_not_nil sep rest) as NE.
  destruct (Ascii.eqb_spec c sep) as [->|N].
  - destruct (split sep rest) as [|part parts] eqn:E; [contradiction|].
    change (join (String sep "") ("" :: part :: parts))
      with (String sep (join (String sep "") (part :: parts))).
    rewrite IH. reflexivity.
  - destruct (split sep rest) as [|part parts] eqn:E; [contradiction|].
    destruct parts as [|part' parts].
    + simpl in IH |- *. rewrite IH. reflexivity.
    + change (join (String sep "") (String c part :: part' :: parts))
        with (String c (join (String sep "") (part :: part' :: parts))).
      rewrite IH. reflexivity.
Qed.

Lemma split_before_last (sep : ascii) (v q : string) :
  contains sep q = false ->
  split sep (v ++ String sep q) = (split sep v ++ [q])%list.
Proof.
  intros Hq. induction v as [|c rest IH]; simpl.
  - rewrite Ascii.eqb_refl, (split_without_separator _ _ Hq). reflexivity.
  - rewrite IH. destruct (Ascii.eqb c sep); [reflexivity|].
    pose proof (split_not_nil sep rest) as NE.
    destruct (split sep rest) as [|part parts]; [contradiction | reflexivity].
Qed.

(** X2: a base name of the Debian form [name_version_arch], where name and
    architecture contain no underscore and no part is empty, is taken
    apart into exactly these three fields; the version may itself contain
    underscores. *)
Theorem X2_debian_file_name (P : Path.Lib) (filename name version arch : string) :
  Path.basename_ext P filename ".deb" = name ++ "_" ++ version ++ "_" ++ arch ->
  contains "_" name = false ->
  contains "_" arch = false ->
  name <> "" -> version <> "" -> arch <> "" ->
  extractInfoFromFilename P filename =
    {| fi_name := name; fi_group := arch; fi_version := version |}.
Proof.
  intros E Hn Ha Nn Nv Na. unfold extractInfoFromFilename. rewrite E.
  change (name ++ "_" ++ version ++ "_" ++ arch)
    with (name ++ String "_" (version ++ String "_" arch)).
  rewrite (split_at_first_separator _ _ _ Hn), (split_before_last _ version _ Ha).
  pose proof (split_not_nil "_" version) as NE.
  pose proof (join_split "_" version) as J.
  set (vs := split "_" version) in *.
  assert (L : List.length (name :: vs ++ [arch]) = S (S (List.length vs)))
    by (simpl; rewrite length_app; simpl; lia).
  rewrite L.
  assert (L2 : Nat.ltb 2 (S (S (List.length vs))) = true).
  { apply Nat.ltb_lt. destruct vs; [contradiction | simpl; lia]. }
  rewrite L2.
  assert (G : nth_error (name :: vs ++ [arch]) (S (S (List.length vs)) - 1)
              = Some arch).
  { replace (S (S (List.length vs)) - 1) with (S (List.length vs)) by lia.
    simpl. rewrite nth_error_app2 by lia. rewrite Nat.sub_diag. reflexivity. }
  rewrite G.
  assert (S : slice 1 (S (S (List.length vs)) - 1) (name :: vs ++ [arch]) = vs).
  { unfold slice.
    replace (S (S (List.length vs)) - 1 - 1) with (List.length vs + 0) by lia.
    simpl skipn. rewrite firstn_app_2. simpl. apply app_nil_r. }
  rewrite S. change "_" with (String "_"%char "") in J |- * at 1.
  simpl nth_error. rewrite J. unfold or_else.
  destruct (String.eqb_spec name ""); [contradiction|].
  destruct (String.eqb_spec arch ""); [contradiction|].
  destruct (String.eqb_spec version ""); [contradiction|]. reflexivity.
Qed.

Lemma X2_witness :
  let P := Posix.path "/home/runner/work" in
  Path.basename_ext P "dist/foo_1.0_2_amd64.deb" ".deb"
  = "foo" ++ "_" ++ "1.0_2" ++ "_" ++ "amd64" /\
  extractInfoFromFilename P "dist/foo_1.0_2_amd64.deb" =
    {| fi_name := "foo"; fi_group := "amd64"; fi_version := "1.0_2" |}.
Proof.
  intros P. split; [reflexivity|].
  apply (X2_debian_file_name P "dist/foo_1.0_2_amd64.deb" "foo" "1.0_2" "amd64");
    try reflexivity; discriminate.
Defined.

(* ------------------------------------------------------------------ *)
(** ** The extension test *)

Lemma toLowerCase_append (a b : string) :
  toLowerCase (a ++ b) = toLowerCase a ++ toLowerCase b.
Proof. induction a as [|c a IH]; simpl; [reflexivity | rewrite IH; reflexivity]. Qed.

Lemma length_append_s (a b : string) :
  String.length (a ++ b) = String.length a + String.length b.
Proof. induction a as [|c a IH]; simpl; [reflexivity | rewrite IH; reflexivity]. Qed.

Lemma substring_whole (b : string) : substring 0 (String.length b) b = b.
Proof. induction b as [|c b IH]; simpl; [reflexivity | rewrite IH; reflexivity]. Qed.

Lemma substring_after (a b : string) :
  substring (String.length a) (String.length b) (a ++ b) = b.
Proof. induction a as [|c a IH]; simpl; [apply substring_whole | exact IH]. Qed.

Lemma endsWith_append (a b : string) : endsWith (a ++ b) b = true.
Proof.
  unfold endsWith. rewrite length_append_s.
  replace (String.length a + String.length b - String.length b)
    with (String.length a) by lia.
  rewrite substring_after, String.eqb_refl.
  apply andb_true_iff. split; [apply Nat.leb_le; lia | reflexivity].
Qed.

Lemma lower_ascii_idempotent (c : ascii) :
  lower_ascii (lower_ascii c) = lower_ascii c.
Proof. destruct c as [[] [] [] [] [] [] [] []]; reflexivity. Qed.

Lemma toLowerCase_idempotent (s : string) :
  toLowerCase (toLowerCase s) = toLowerCase s.
Proof.
  induction s as [|c s IH]; simpl; [reflexivity|].
  rewrite lower_ascii_idempotent, IH. reflexivity.
Qed.

(** X3: the test that selects package files ignores the case of the
    extension: a name that ends in [.deb] written in any mix of upper and
    lower case is accepted, and a name and its lower-case form are always
    treated alike. *)
Theorem X3_extension_ignores_case (stem ext : string) :
  toLowerCase ext = ".deb" ->
  is_deb (stem ++ ext) = true /\
  (forall file, is_deb (toLowerCase file) = is_deb file).
Proof.
  intros E. split.
  - unfold is_deb. rewrite toLowerCase_append, E. apply endsWith_append.
  - intros file. unfold is_deb. rewrite toLowerCase_idempotent. reflexivity.
Qed.

Lemma X3_witness :
  toLowerCase ".DeB" = ".deb" /\ is_deb ("Foo_1.0_amd64" ++ ".DeB") = true.
Proof.
  split; [reflexivity|].
  exact (proj1 (X3_extension_ignores_case "Foo_1.0_amd64" ".DeB" eq_refl)).
Defined.

(* ------------------------------------------------------------------ *)
(** ** Fingerprints *)

Lemma hex_digit_is_lower_hex (n : N) : is_lower_hex_digit (hex_digit n) = true.
Proof.
  destruct n as [|p]; [reflexivity|].
  do 4 (try destruct p as [p|p|]); reflexivity.
Qed.

Lemma hex_is_lower_hex (bytes : list Byte.byte) : is_lower_hex (hex bytes) = true.
Proof.
  induction bytes as [|b l IH]; simpl; [reflexivity|].
  rewrite !hex_digit_is_lower_hex, IH. reflexivity.
Qed.

Lemma hex_length (bytes : list Byte.byte) :
  String.length (hex bytes) = 2 * List.length bytes.
Proof. induction bytes as [|b l IH]; simpl; [reflexivity | rewrite IH; lia]. Qed.

(** X4: the fingerprint of a file is a string of lower-case hexadecimal
    digits, two for each byte of the digest; so a matching record whose
    recorded checksum contains any other character (an upper-case digest
    for instance) is never taken as current: reconciling the file always
    asks for its deletion. *)
Theorem X4_fingerprint_is_lower_hex (w : World) (config : Config)
  (repository filePath : string) (components : list Component) (st : State)
  (fileData : list Byte.byte) (comp : Component) :
  let actualFilePath := getActualFilePath w filePath in
  let fileInfo := getDebInfoWithDpkg w actualFilePath in
  let fileSha256 := generateSHA256 w fileData in
  readFile w actualFilePath = Success fileData ->
  In comp components ->
  matches comp fileInfo = true ->
  is_lower_hex (sha256 comp) = false ->
  String.length fileSha256 = 2 * List.length (sha256_digest w fileData) /\
  is_lower_hex fileSha256 = true /\
  exists st' issued,
    processSingleFile w config repository filePath components st = (Ret tt, st') /\
    requests st' = (requests st ++ issued)%list /\
    In (delete_request config comp) issued.
Proof.
  intros actualFilePath fileInfo fileSha256 HR HI HM HX.
  split; [apply hex_length|]. split; [apply hex_is_lower_hex|].
  destruct (processSingleFile_issued w config repository filePath components st HR)
    as (st' & E & R).
  exists st', (reconcile_requests w config repository components
                 actualFilePath fileData).
  split; [exact E|]. split; [exact R|].
  unfold reconcile_requests. apply in_stale_deleted; try assumption.
  intros C. fold actualFilePath in C. rewrite C in HX.
  unfold generateSHA256 in HX. rewrite hex_is_lower_hex in HX. discriminate HX.
Qed.

Lemma X4_witness :
  let w := Example.foo_world in
  let upper := component_of_item
                 (Example.component_item "id5" "foo" "amd64" "1.0.0" (Some "ABC123")) in
  readFile w (getActualFilePath w "foo_1.0.0_amd64.deb") = Success Example.abc123 /\
  is_lower_hex (sha256 upper) = false /\
  exists st' issued,
    processSingleFile w Example.config "apt-hosted" "foo_1.0.0_amd64.deb"
      [upper] initial = (Ret tt, st') /\
    requests st' = (requests initial ++ issued)%list /\
    In (Delete "http://nexus/service/rest/v1/components/id5") issued.
Proof.
  intros w upper. split; [reflexivity|]. split; [reflexivity|].
  exact (proj2 (proj2 (X4_fingerprint_is_lower_hex w Example.config "apt-hosted"
           "foo_1.0.0_amd64.deb" [upper] initial Example.abc123 upper
           eq_refl (or_introl eq_refl) eq_refl eq_refl))).
Defined.

(* ------------------------------------------------------------------ *)
(** ** One file, one record *)

Lemma filter_stale_of_matching (fileInfo : FileInfo) (fileSha256 : string)
  (components : list Component) :
  filter (stale fileInfo fileSha256) components =
  filter (fun c => negb (String.eqb (sha256 c) fileSha256))
    (filter (fun c => matches c fileInfo) components).
Proof.
  induction components as [|c rest IH]; [reflexivity|]. simpl.
  unfold stale at 1. destruct (matches c fileInfo); simpl; rewrite IH; reflexivity.
Qed.

Lemma existsb_current_of_matching (fileInfo : FileInfo) (fileSha256 : string)
  (components : list Component) :
  existsb (current fileInfo fileSha256) components =
  existsb (fun c => String.eqb (sha256 c) fileSha256)
    (filter (fun c => matches c fileInfo) components).
Proof.
  induction components as [|c rest IH]; [reflexivity|]. simpl.
  unfold current at 1. destruct (matches c fileInfo); simpl; rewrite IH; reflexivity.
Qed.

(** X5: when exactly one record of the inventory matches the file and its
    fingerprint differs, reconciliation issues exactly two requests: the
    DELETE of that record, then the upload of the file. *)
Theorem X5_stale_record_is_replaced (w : World) (config : Config)
  (repository filePath : string) (components : list Component) (st : State)
  (fileData : list Byte.byte) (comp : Component) :
  let actualFilePath := getActualFilePath w filePath in
  let fileInfo := getDebInfoWithDpkg w actualFilePath in
  readFile w actualFilePath = Success fileData ->
  filter (fun c => matches c fileInfo) components = [comp] ->
  sha256 comp <> generateSHA256 w fileData ->
  exists st',
    processSingleFile w config repository filePath components st = (Ret tt, st') /\
    requests st' =
      (requests st ++
       [Delete (component_url config (id comp));
        upload_request w config repository actualFilePath fileData])%list.
Proof.
  intros actualFilePath fileInfo HR ONE HS.
  destruct (processSingleFile_issued w config repository filePath components st HR)
    as (st' & E & R).
  exists st'. split; [exact E|]. rewrite R. f_equal.
  unfold reconcile_requests. fold actualFilePath. fold fileInfo.
  rewrite filter_stale_of_matching, existsb_current_of_matching, ONE. simpl.
  apply String.eqb_neq in HS. rewrite HS. reflexivity.
Qed.

Lemma X5_witness :
  let w := Example.foo_world in
  readFile w (getActualFilePath w "foo_1.0.0_amd64.deb") = Success Example.abc123 /\
  exists st',
    processSingleFile w Example.config "apt-hosted" "foo_1.0.0_amd64.deb"
      [Example.bar_current; Example.foo_stale] initial = (Ret tt, st') /\
    requests st' =
      [Delete "http://nexus/service/rest/v1/components/id2";
       Post "http://nexus/service/rest/v1/components?repository=apt-hosted"
         (FormData "foo_1.0.0_amd64.deb" Example.abc123)].
Proof.
  intros w. split; [reflexivity|].
  destruct (X5_stale_record_is_replaced w Example.config "apt-hosted"
              "foo_1.0.0_amd64.deb" [Example.bar_current; Example.foo_stale]
              initial Example.abc123 Example.foo_stale eq_refl eq_refl)
    as (st' & E & R); [discriminate|].
  exists st'. split; [exact E | exact R].
Defined.

(* ------------------------------------------------------------------ *)
(** ** Symbolic links *)

Lemma reconcile_requests_unmatched (w : World) (config : Config) (repository : string)
  (components : list Component) (actualFilePath : string) (fileData : list Byte.byte) :
  (forall comp, In comp components ->
     matches comp (getDebInfoWithDpkg w actualFilePath) = false) ->
  reconcile_requests w config repository components actualFilePath fileData =
  [upload_request w config repository actualFilePath fileData].
Proof.
  intros NONE. unfold reconcile_requests.
  rewrite filter_stale_of_matching, existsb_current_of_matching.
  assert (E : filter (fun c => matches c (getDebInfoWithDpkg w actualFilePath))
                components = []).
  { induction components as [|c rest IH]; [reflexivity|]. simpl.
    rewrite (NONE c (or_introl eq_refl)). apply IH.
    intros c' H. apply NONE. right. exact H. }
  rewrite E. reflexivity.
Qed.

(** X6: a path that is a symbolic link is followed once: the file that is
    inspected, hashed and uploaded, and whose name the upload carries, is
    the target of the link (taken relative to the directory of the link
    when it is not absolute); a link whose target cannot be read makes
    [processSingleFile] throw the read error without issuing a request. *)
Theorem X6_symbolic_link_is_followed (w : World) (config : Config)
  (repository filePath : string) (components : list Component) (st : State)
  (targetPath : string) :
  lstat_isSymbolicLink w filePath = Success true ->
  readlink w filePath = Success targetPath ->
  let actualFilePath :=
    if Path.isAbsolute (path w) targetPath then targetPath
    else Path.resolve (path w) (Path.dirname (path w) filePath) targetPath in
  getActualFilePath w filePath = actualFilePath /\
  (forall fileData,
     readFile w actualFilePath = Success fileData ->
     (forall comp, In comp components ->
        matches comp (getDebInfoWithDpkg w actualFilePath) = false) ->
     exists st',
       processSingleFile w config repository filePath components st = (Ret tt, st') /\
       requests st' =
         (requests st ++
          [Post (components_url config repository)
             (FormData (Path.basename (path w) actualFilePath) fileData)])%list) /\
  (forall e,
     readFile w actualFilePath = Failure e ->
     processSingleFile w config repository filePath components st = (Exc e, st)).
Proof.
  intros HL HT actualFilePath.
  assert (EA : getActualFilePath w filePath = actualFilePath).
  { unfold getActualFilePath, actualFilePath. rewrite HL, HT.
    destruct (Path.isAbsolute (path w) targetPath); reflexivity. }
  split; [exact EA|]. split.
  - intros fileData HR NONE. rewrite <- EA in HR.
    destruct (processSingleFile_issued w config repository filePath components st HR)
      as (st' & E & R).
    exists st'. split; [exact E|]. rewrite R, EA.
    rewrite (reconcile_requests_unmatched w config repository components
               actualFilePath fileData NONE).
    reflexivity.
  - intros e HR. rewrite <- EA in HR.
    exact (processSingleFile_unreadable w config repository filePath components st HR).
Qed.

Lemma X6_witness :
  let w := Example.broken_entry_world in
  lstat_isSymbolicLink w "dist/gone_1_all.deb" = Success true /\
  readlink w "dist/gone_1_all.deb" = Success "../build/gone_1_all.deb" /\
  getActualFilePath w "dist/gone_1_all.deb"
  = "/home/runner/work/build/gone_1_all.deb" /\
  fst (processSingleFile w Example.config "apt-hosted" "dist/gone_1_all.deb"
         [] initial)
  = Exc "ENOENT: no such file or directory '/home/runner/work/build/gone_1_all.deb'".
Proof.
  intros w. split; [reflexivity|]. split; [reflexivity|].
  destruct (X6_symbolic_link_is_followed w Example.config "apt-hosted"
              "dist/gone_1_all.deb" [] initial "../build/gone_1_all.deb"
              eq_refl eq_refl) as (EA & _ & BAD).
  split; [exact EA|].
  rewrite (BAD _ eq_refl). reflexivity.
Defined.

(* ------------------------------------------------------------------ *)
(** ** The entries of a directory *)

Lemma file_requests_readable (w : World) (config : Config) (repository : string)
  (components : list Component) (filePath : string) (fileData : list Byte.byte) :
  readFile w (getActualFilePath w filePath) = Success fileData ->
  file_requests w config repository components filePath =
  reconcile_requests w config repository components
    (getActualFilePath w filePath) fileData.
Proof. intros HR. unfold file_requests. rewrite HR. reflexivity. Qed.

(** The loop over the entries, in full: the entries before the first
    unreadable one are reconciled in turn, and the loop then either ends
    or throws the read error of that entry. *)
Lemma processDebFiles_trace (w : World) (config : Config)
  (repository uploadPath : string) (components : list Component)
  (debFiles : list string) :
  forall st : State,
  exists out st' l,
    processDebFiles w config repository uploadPath components debFiles st = (out, st') /\
    grows w st l st' /\
    core st' = core st /\
    map fst l =
      flat_map (fun file => file_requests w config repository components
                              (entry_path w uploadPath file))
        (readable_prefix w uploadPath debFiles) /\
    (out = Ret tt /\ readable_prefix w uploadPath debFiles = debFiles \/
     exists bad after e,
       debFiles = (readable_prefix w uploadPath debFiles ++ bad :: after)%list /\
       readFile w (getActualFilePath w (entry_path w uploadPath bad)) = Failure e /\
       out = Exc e).
Proof.
  induction debFiles as [|file rest IH]; intros st; simpl.
  - exists (Ret tt), st, []. split; [reflexivity|]. split; [apply grows_refl|].
    split; [reflexivity|]. split; [reflexivity|]. left. split; reflexivity.
  - fold (entry_path w uploadPath file). unfold bind, readable.
    destruct (readFile w (getActualFilePath w (entry_path w uploadPath file)))
      as [fileData|e] eqn:HR.
    + destruct (processSingleFile_readable w config repository
                  (entry_path w uploadPath file) components st HR)
        as (st1 & l1 & E1 & G1 & C1 & R1).
      rewrite E1.
      destruct (IH st1) as (out & st' & l & E & G & C & R & K).
      exists out, st', (l1 ++ l)%list. split; [exact E|].
      split; [exact (grows_trans G1 G)|]. split; [congruence|].
      split.
      { simpl. rewrite map_app, R1, R.
        rewrite (file_requests_readable w config repository components _ _ HR).
        reflexivity. }
      destruct K as [[-> K] | (bad & after & e & K & HB & ->)].
      * left. split; [reflexivity | rewrite K; reflexivity].
      * right. exists bad, after, e. split; [|split; [exact HB | reflexivity]].
        simpl. rewrite <- K. reflexivity.
    + rewrite (processSingleFile_unreadable w config repository
                 (entry_path w uploadPath file) components st HR).
      exists (Exc e), st, []. split; [reflexivity|]. split; [apply grows_refl|].
      split; [reflexivity|]. split; [reflexivity|].
      right. exists file, rest, e. split; [reflexivity|]. split; [exact HR | reflexivity].
Qed.

(** X7: the loop over a directory stops at the first entry that cannot be
    read: the entries before it are reconciled in turn, the read error is
    thrown, and no request is issued for that entry or any later one. *)
Theorem X7_first_unreadable_entry_stops_the_loop (w : World) (config : Config)
  (repository uploadPath : string) (components : list Component)
  (before : list string) (bad : string) (after : list string) (e : string)
  (st : State) :
  forallb (fun file => readable w (entry_path w uploadPath file)) before = true ->
  readFile w (getActualFilePath w (entry_path w uploadPath bad)) = Failure e ->
  exists st',
    processDebFiles w config repository uploadPath components
      (before ++ bad :: after) st = (Exc e, st') /\
    core st' = core st /\
    requests st' =
      (requests st ++
       flat_map (fun file => file_requests w config repository components
                               (entry_path w uploadPath file)) before)%list.
Proof.
  intros HB HR.
  assert (P : readable_prefix w uploadPath (before ++ bad :: after) = before).
  { clear -HB HR. induction before as [|f rest IH]; simpl in *.
    - unfold readable. rewrite HR. reflexivity.
    - apply andb_true_iff in HB. destruct HB as [Hf Hrest].
      rewrite Hf, (IH Hrest). reflexivity. }
  destruct (processDebFiles_trace w config repository uploadPath components
              (before ++ bad :: after) st)
    as (out & st' & l & E & G & C & R & K).
  rewrite P in R, K.
  exists st'. split; [|split; [exact C | rewrite (grows_requests G), R; reflexivity]].
  rewrite E. f_equal.
  destruct K as [[_ K] | (bad' & after' & e' & K & HR' & ->)].
  - exfalso. apply (f_equal (@List.length string)) in K.
    rewrite length_app in K. simpl in K. lia.
  - apply app_inv_head in K. injection K as <- _.
    rewrite HR in HR'. injection HR' as <-. reflexivity.
Qed.

Lemma X7_witness :
  let w := Example.broken_entry_world in
  exists st',
    processDebFiles w Example.config "apt-hosted" "dist" [Example.foo_stale]
      (["foo_1.0.0_amd64.deb"] ++ "gone_1_all.deb" :: ["later_1_all.deb"]) initial
    = (Exc "ENOENT: no such file or directory '/home/runner/work/build/gone_1_all.deb'",
       st') /\
    requests st' =
      [Delete "http://nexus/service/rest/v1/components/id2";
       Post "http://nexus/service/rest/v1/components?repository=apt-hosted"
         (FormData "foo_1.0.0_amd64.deb" Example.abc123)].
Proof.
  intros w.
  destruct (X7_first_unreadable_entry_stops_the_loop w Example.config "apt-hosted"
              "dist" [Example.foo_stale] ["foo_1.0.0_amd64.deb"] "gone_1_all.deb"
              ["later_1_all.deb"] _ initial eq_refl eq_refl)
    as (st' & E & _ & R).
  exists st'. split; [exact E | exact R].
Defined.

Lemma readable_prefix_incl (w : World) (uploadPath : string) (debFiles : list string) :
  incl (readable_prefix w uploadPath debFiles) debFiles.
Proof.
  induction debFiles as [|f rest IH]; simpl; [apply incl_refl|].
  destruct (readable w (entry_path w uploadPath f)).
  - apply incl_cons; [left; reflexivity | apply incl_tl; exact IH].
  - intros x [].
Qed.

Lemma reconcile_requests_mutations (w : World) (config : Config) (repository : string)
  (components : list Component) (actualFilePath : string) (fileData : list Byte.byte) :
  Forall (fun r => is_mutation r = true)
    (reconcile_requests w config repository components actualFilePath fileData).
Proof.
  unfold reconcile_requests. apply Forall_app. split.
  - apply Forall_forall. intros r H. apply in_map_iff in H.
    destruct H as (c & <- & _). reflexivity.
  - destruct (existsb _ components); constructor; [reflexivity | constructor].
Qed.

Lemma file_requests_mutations (w : World) (config : Config) (repository : string)
  (components : list Component) (filePath : string) :
  Forall (fun r => is_mutation r = true)
    (file_requests w config repository components filePath).
Proof.
  unfold file_requests. destruct (readFile w (getActualFilePath w filePath)).
  - apply reconcile_requests_mutations.
  - constructor.
Qed.

Lemma delete_in_file_requests (w : World) (config : Config) (repository : string)
  (components : list Component) (filePath : string) (r : Request) :
  In r (file_requests w config repository components filePath) ->
  is_delete r = true ->
  exists comp fileData,
    In comp components /\
    r = Delete (component_url config (id comp)) /\
    readFile w (getActualFilePath w filePath) = Success fileData /\
    matches comp (getDebInfoWithDpkg w (getActualFilePath w filePath)) = true /\
    sha256 comp <> generateSHA256 w fileData.
Proof.
  unfold file_requests.
  destruct (readFile w (getActualFilePath w filePath)) as [fileData|e];
    [|intros []].
  unfold reconcile_requests. intros HI HD. apply in_app_or in HI.
  destruct HI as [HI|HI].
  - apply in_map_iff in HI. destruct HI as (comp & <- & HF).
    apply filter_In in HF. destruct HF as [HC HS]. unfold stale in HS.
    apply andb_true_iff in HS. destruct HS as [HM HN].
    exists comp, fileData. split; [exact HC|]. split; [reflexivity|].
    split; [reflexivity|]. split; [exact HM|].
    apply String.eqb_neq. apply negb_true_iff. exact HN.
  - destruct (existsb _ components); [destruct HI|].
    destruct HI as [<- | []]. discriminate HD.
Qed.

(** X8: whatever the directory holds, the loop issues only DELETEs and
    uploads, and every DELETE it issues is aimed at a record of the
    snapshot that matches the descriptor of one of the entries and whose
    fingerprint differs from that entry's: no other record is ever
    deleted. *)
Theorem X8_only_stale_matches_are_deleted (w : World) (config : Config)
  (repository uploadPath : string) (components : list Component)
  (debFiles : list string) (st : State) :
  exists issued,
    requests (snd (processDebFiles w config repository uploadPath components
                     debFiles st))
    = (requests st ++ issued)%list /\
    Forall (fun r => is_mutation r = true) issued /\
    (forall r, In r issued -> is_delete r = true ->
       exists file comp fileData,
         In file debFiles /\ In comp components /\
         r = Delete (component_url config (id comp)) /\
         readFile w (getActualFilePath w (entry_path w uploadPath file))
         = Success fileData /\
         matches comp
           (getDebInfoWithDpkg w
              (getActualFilePath w (entry_path w uploadPath file))) = true /\
         sha256 comp <> generateSHA256 w fileData).
Proof.
  destruct (processDebFiles_trace w config repository uploadPath components
              debFiles st) as (out & st' & l & E & G & _ & R & _).
  rewrite E. simpl. exists (map fst l).
  split; [exact (grows_requests G)|]. rewrite R. split.
  - apply Forall_forall. intros r H. apply in_flat_map in H.
    destruct H as (file & _ & H).
    exact (proj1 (Forall_forall _ _)
             (file_requests_mutations w config repository components
                (entry_path w uploadPath file)) r H).
  - intros r H HD. apply in_flat_map in H. destruct H as (file & HF & H).
    destruct (delete_in_file_requests w config repository components
                (entry_path w uploadPath file) r H HD)
      as (comp & fileData & HC & -> & HR & HM & HS).
    exists file, comp, fileData.
    split; [exact (readable_prefix_incl w uploadPath debFiles file HF)|].
    auto.
Qed.

Lemma readable_prefix_with_server (w : World)
  (srv : list Exchange -> Request -> Try Response) (uploadPath : string)
  (debFiles : list string) :
  readable_prefix (with_server w srv) uploadPath debFiles =
  readable_prefix w uploadPath debFiles.
Proof.
  induction debFiles as [|f rest IH]; simpl; [reflexivity|].
  rewrite IH. reflexivity.
Qed.

(** X9: what the registry answers to deletions and uploads has no
    influence on what the loop does next: in front of any two registries,
    and from any two states, the same directory leads to the same
    requests and the same outcome. *)
Theorem X9_answers_do_not_steer_the_loop (w : World)
  (srv : list Exchange -> Request -> Try Response) (config : Config)
  (repository uploadPath : string) (components : list Component)
  (debFiles : list string) (st1 st2 : State) :
  let run1 := processDebFiles w config repository uploadPath components debFiles st1 in
  let run2 := processDebFiles (with_server w srv) config repository uploadPath
                components debFiles st2 in
  fst run1 = fst run2 /\
  exists issued,
    requests (snd run1) = (requests st1 ++ issued)%list /\
    requests (snd run2) = (requests st2 ++ issued)%list.
Proof.
  intros run1 run2. subst run1 run2.
  destruct (processDebFiles_trace w config repository uploadPath components
              debFiles st1) as (out1 & st1' & l1 & E1 & G1 & _ & R1 & K1).
  destruct (processDebFiles_trace (with_server w srv) config repository uploadPath
              components debFiles st2) as (out2 & st2' & l2 & E2 & G2 & _ & R2 & K2).
  rewrite E1, E2. simpl.
  rewrite readable_prefix_with_server in R2, K2.
  change (fun file => file_requests (with_server w srv) config repository components
                        (entry_path (with_server w srv) uploadPath file))
    with (fun file => file_requests w config repository components
                        (entry_path w uploadPath file)) in R2.
  split.
  - destruct K1 as [[-> K1] | (b1 & a1 & e1 & K1 & H1 & ->)];
      destruct K2 as [[-> K2] | (b2 & a2 & e2 & K2 & H2 & ->)].
    + reflexivity.
    + exfalso. rewrite K1 in K2. apply (f_equal (@List.length string)) in K2.
      rewrite length_app in K2. simpl in K2. lia.
    + exfalso. rewrite K2 in K1. apply (f_equal (@List.length string)) in K1.
      rewrite length_app in K1. simpl in K1. lia.
    + rewrite K1 in K2 at 1. apply app_inv_head in K2. injection K2 as <- _.
      change (readFile (with_server w srv)) with (readFile w) in H2.
      change (getActualFilePath (with_server w srv)) with (getActualFilePath w) in H2.
      change (entry_path (with_server w srv)) with (entry_path w) in H2.
      rewrite H1 in H2. injection H2 as <-. reflexivity.
  - exists (map fst l1). split; [exact (grows_requests G1)|].
    rewrite (grows_requests G2), R2, <- R1. reflexivity.
Qed.

(* ------------------------------------------------------------------ *)
(** ** More on the listing *)

Lemma component_of_item_normalised (item : Item) :
  group (component_of_item item) <> "" /\
  version (component_of_item item) <> "" /\
  sha256 (component_of_item item) <> "".
Proof.
  unfold component_of_item. cbn [group version sha256].
  split; [apply or_else_not_empty; discriminate|].
  split; [apply or_else_not_empty; discriminate|].
  destruct (item_assets item) as [[|asset rest]|]; try discriminate.
  destruct (checksum asset) as [digest|]; [|discriminate].
  apply or_else_not_empty. discriminate.
Qed.

Lemma getComponents_loop_normalised (w : World) (config : Config) (repository : string)
  (fuel : nat) :
  forall (components : list Component) (continuationToken : option string)
         (st : State) (result : list Component) (st' : State),
  Forall (fun c => group c <> "" /\ version c <> "" /\ sha256 c <> "") components ->
  getComponents_loop fuel w config repository components continuationToken st
  = (Ret result, st') ->
  Forall (fun c => group c <> "" /\ version c <> "" /\ sha256 c <> "") result.
Proof.
  induction fuel as [|fuel IH];
    intros components continuationToken st result st' HP E; simpl in E;
    [discriminate E|].
  unfold bind, axios in E.
  destruct (server w (log st) (Get (page_url config repository continuationToken)))
    as [response|e]; [|discriminate E].
  assert (HP' : Forall (fun c => group c <> "" /\ version c <> "" /\ sha256 c <> "")
                  (components ++ page_components response)).
  { apply Forall_app. split; [exact HP|]. unfold page_components.
    destruct (data_items response) as [l|]; [|constructor].
    apply Forall_forall. intros c H. apply in_map_iff in H.
    destruct H as (item & <- & _). apply component_of_item_normalised. }
  destruct (truthy (data_continuationToken response)).
  - exact (IH _ _ _ _ _ HP' E).
  - injection E as <- _. exact HP'.
Qed.

(** X10: every component [getComponents] returns has been normalised: its
    group, its version and its checksum are never the empty string (a
    missing or empty value has become ["-"]), so that together with X1 the
    matching rule never compares an empty field. *)
Theorem X10_listed_components_are_normalised (fuel : nat) (w : World)
  (config : Config) (repository : string) (st st' : State)
  (components : list Component) :
  getComponents fuel w config repository st = (Ret components, st') ->
  Forall (fun c => group c <> "" /\ version c <> "" /\ sha256 c <> "") components.
Proof.
  unfold getComponents, try_catch. intros E.
  destruct (getComponents_loop fuel w config repository [] None st)
    as [[result|e|] st1] eqn:EL; try discriminate E.
  injection E as <- _.
  exact (getComponents_loop_normalised w config repository fuel [] None st _ _
           (Forall_nil _) EL).
Qed.

Lemma X10_witness :
  exists st',
    getComponents 2 Example.paged_world Example.config "apt-hosted" initial
    = (Ret [Example.foo_current; Example.bar_current], st') /\
    Forall (fun c => group c <> "" /\ version c <> "" /\ sha256 c <> "")
      [Example.foo_current; Example.bar_current].
Proof.
  eexists. split; [reflexivity|].
  exact (X10_listed_components_are_normalised 2 Example.paged_world Example.config
           "apt-hosted" initial _ _ eq_refl).
Defined.

Lemma page_exchanges_requests (config : Config) (repository : string)
  (ps : list Response) :
  forall continuationToken,
  map fst (page_exchanges config repository continuationToken ps) =
  page_requests config repository continuationToken ps.
Proof.
  induction ps as [|p ps IH]; intros continuationToken; simpl;
    [reflexivity | rewrite IH; reflexivity].
Qed.

(** The loop on a registry that serves the pages [ps], all of them with a
    token: after [length ps] turns it stands at the cursor of the last
    page with the components of all of them. *)
Lemma getComponents_loop_served (w : World) (config : Config) (repository : string)
  (ps : list Response) :
  forall (n : nat) (components : list Component)
         (continuationToken : option string) (st : State),
  Forall (fun p => truthy (data_continuationToken p) = true) ps ->
  answers w (log st) (page_requests config repository continuationToken ps) ps ->
  exists st_k,
    log st_k = (log st ++ page_exchanges config repository continuationToken ps)%list /\
    hasDeletedComponent st_k = hasDeletedComponent st /\
    core st_k = core st /\
    getComponents_loop (List.length ps + n) w config repository components
      continuationToken st =
    getComponents_loop n w config repository
      (components ++ List.concat (map page_components ps))%list
      (cursor_after continuationToken ps) st_k.
Proof.
  induction ps as [|p ps IH]; intros n components continuationToken st HT HA.
  - exists st. simpl. rewrite !app_nil_r. auto.
  - simpl in HA. destruct HA as [HA1 HA2].
    inversion HT as [|? ? HTp HTps]; subst.
    set (st1 := {| hasDeletedComponent := hasDeletedComponent st;
                   log := (log st ++
                           [(Get (page_url config repository continuationToken),
                             Success p)])%list;
                   core := core st |}).
    destruct (IH n (components ++ page_components p)%list
                (data_continuationToken p) st1 HTps HA2)
      as (st_k & L & F & C & E).
    exists st_k. split.
    { rewrite L. unfold st1. simpl. rewrite <- app_assoc. reflexivity. }
    split; [exact F|]. split; [exact C|].
    change (List.length (p :: ps) + n) with (S (List.length ps + n)).
    cbn [getComponents_loop]. unfold bind at 1. unfold axios at 1.
    rewrite HA1, HTp. fold st1. rewrite E. simpl. rewrite <- app_assoc.
    reflexivity.
Qed.

(** X11: a page request that is rejected fails the whole run, also after
    pages that were served: the components listed so far are dropped, the
    run reports the error of the rejected request, and the requests of
    the run are the page requests up to the rejected one and nothing
    else. *)
Theorem X11_rejected_page_fails_the_run (fuel : nat) (w : World)
  (repository uploadPath nexusUrl nexusUser nexusPassword : string)
  (pages : list Response) (e : string) :
  let config := config_of w nexusUrl nexusUser nexusPassword in
  let rejected :=
    Get (page_url config repository (cursor_after None pages)) in
  inputs_are w repository uploadPath nexusUrl nexusUser nexusPassword ->
  Forall (fun p => truthy (data_continuationToken p) = true) pages ->
  answers w [] (page_requests config repository None pages) pages ->
  server w (page_exchanges config repository None pages) rejected = Failure e ->
  List.length pages < fuel ->
  exists st',
    run fuel w initial = (Ret tt, st') /\
    core st' = [SetFailed e] /\
    hasDeletedComponent st' = false /\
    requests st' = (page_requests config repository None pages ++ [rejected])%list.
Proof.
  intros config rejected HI HT HA HF HL.
  rewrite (run_phases fuel initial HI). fold config.
  unfold getComponents, try_catch.
  replace fuel with (List.length pages + S (fuel - List.length pages - 1)) by lia.
  destruct (getComponents_loop_served w config repository pages
              (S (fuel - List.length pages - 1)) [] None initial HT HA)
    as (st_k & L & F & C & E).
  rewrite E. cbn [getComponents_loop]. unfold bind, axios.
  simpl in L. rewrite L. fold rejected. rewrite HF.
  eexists. split; [reflexivity|]. simpl.
  split; [rewrite C; reflexivity|]. split; [exact F|].
  unfold requests. simpl. rewrite map_app, page_exchanges_requests. reflexivity.
Qed.

Lemma X11_witness :
  let w := Example.flaky_world in
  inputs_are w "apt-hosted" "dist" "http://nexus" "admin" "admin123" /\
  exists st',
    run 5 w initial = (Ret tt, st') /\
    core st' = [SetFailed "Request failed with status code 500"] /\
    requests st' =
      [Get "http://nexus/service/rest/v1/components?repository=apt-hosted";
       Get "http://nexus/service/rest/v1/components?repository=apt-hosted&continuationToken=tok1"].
Proof.
  intros w.
  assert (HI : inputs_are w "apt-hosted" "dist" "http://nexus" "admin" "admin123")
    by (repeat split).
  split; [exact HI|].
  destruct (X11_rejected_page_fails_the_run 5 w "apt-hosted" "dist" "http://nexus"
              "admin" "admin123" [Example.first_page]
              "Request failed with status code 500" HI)
    as (st' & E & C & _ & R).
  - constructor; [reflexivity | constructor].
  - simpl. split; [reflexivity | exact I].
  - reflexivity.
  - simpl. lia.
  - exists st'. split; [exact E|]. split; [exact C | exact R].
Defined.

Lemma getComponents_loop_endless (w : World) (config : Config) (repository : string)
  (fuel : nat) :
  always_more w ->
  forall (components : list Component) (continuationToken : option string)
         (st : State),
  exists st',
    getComponents_loop fuel w config repository components continuationToken st
    = (OutOfFuel, st') /\
    core st' = core st /\
    List.length (requests st') = List.length (requests st) + fuel.
Proof.
  intros MORE. induction fuel as [|fuel IH]; intros components continuationToken st.
  - exists st. simpl. split; [reflexivity|]. split; [reflexivity | lia].
  - cbn [getComponents_loop]. unfold bind, axios.
    destruct (MORE (log st) (page_url config repository continuationToken))
      as (p & EP & TP).
    rewrite EP, TP.
    set (st1 := {| hasDeletedComponent := hasDeletedComponent st;
                   log := (log st ++
                           [(Get (page_url config repository continuationToken),
                             Success p)])%list;
                   core := core st |}).
    destruct (IH (components ++ page_components p)%list
                (data_continuationToken p) st1) as (st' & E & C & N).
    exists st'. split; [exact E|]. split; [exact C|].
    rewrite N. unfold requests, st1. simpl. rewrite length_map, length_app.
    rewrite length_map. simpl. lia.
Qed.

(** X12: the listing has no limit on the number of pages: in front of a
    registry whose every page carries a continuation token it goes on
    asking for as long as it is given fuel, and the run never reaches a
    report. *)
Theorem X12_listing_has_no_page_limit (fuel : nat) (w : World)
  (repository uploadPath nexusUrl nexusUser nexusPassword : string) :
  inputs_are w repository uploadPath nexusUrl nexusUser nexusPassword ->
  always_more w ->
  exists st',
    run fuel w initial = (OutOfFuel, st') /\
    core st' = [] /\
    List.length (requests st') = fuel.
Proof.
  intros HI MORE. rewrite (run_phases fuel initial HI).
  unfold getComponents, try_catch.
  destruct (getComponents_loop_endless w
              (config_of w nexusUrl nexusUser nexusPassword) repository fuel MORE
              [] None initial) as (st' & E & C & N).
  rewrite E. exists st'. split; [reflexivity|]. split; [exact C | exact N].
Qed.

Lemma X12_witness :
  let w := Example.endless_world in
  inputs_are w "apt-hosted" "dist" "http://nexus" "admin" "admin123" /\
  always_more w /\
  exists st', run 7 w initial = (OutOfFuel, st') /\
              core st' = [] /\ List.length (requests st') = 7.
Proof.
  intros w.
  assert (HI : inputs_are w "apt-hosted" "dist" "http://nexus" "admin" "admin123")
    by (repeat split).
  assert (MORE : always_more w).
  { intros history url. eexists. split; reflexivity. }
  split; [exact HI|]. split; [exact MORE|].
  exact (X12_listing_has_no_page_limit 7 w "apt-hosted" "dist" "http://nexus"
           "admin" "admin123" HI MORE).
Defined.

(* ------------------------------------------------------------------ *)
(** ** The rebuild routine *)

Lemma runRebuildAptMetadata_trace (w : World) (config : Config) (st : State) :
  let listing := Get (tasks_url config) in
  let answer := server w (log st) listing in
  exists b st',
    runRebuildAptMetadata w config st = (Ret b, st') /\
    core st' = core st /\
    hasDeletedComponent st' = hasDeletedComponent st /\
    requests st' = (requests st ++ listing :: rebuild_run_request config answer)%list /\
    (b = true ->
     exists aptTask,
       rebuild_run_request config answer
       = [Post (task_run_url config (item_id aptTask)) EmptyObject] /\
       accepted (server w (log st ++ [(listing, answer)])
                   (Post (task_run_url config (item_id aptTask)) EmptyObject))
       = true).
Proof.
  intros listing answer.
  unfold runRebuildAptMetadata, try_catch, bind, axios. fold listing. fold answer.
  unfold rebuild_run_request.
  destruct answer as [tasksResponse|e]; simpl.
  - destruct (Z.eqb (status tasksResponse) 200); simpl.
    + destruct (data_items tasksResponse) as [tasks|]; simpl.
      * destruct (find is_apt_rebuild tasks) as [aptTask|]; simpl.
        -- set (r2 := Post (task_run_url config (item_id aptTask)) EmptyObject).
           set (h := (log st ++ [(listing, Success tasksResponse)])%list).
           destruct (server w h r2) as [runResponse|e] eqn:E2; simpl.
           ++ destruct (Z.eqb (status runResponse) 204) eqn:E204; simpl;
                eexists _, _; (split; [reflexivity|]); simpl;
                (split; [reflexivity|]); (split; [reflexivity|]);
                (split; [same_requests|]).
              ** intros _. exists aptTask. split; [reflexivity|].
                 fold r2. fold h. rewrite E2. simpl. exact E204.
              ** discriminate.
           ++ eexists _, _. split; [reflexivity|]. simpl.
              split; [reflexivity|]. split; [reflexivity|].
              split; [same_requests | discriminate].
        -- eexists _, _. split; [reflexivity|]. simpl.
           split; [reflexivity|]. split; [reflexivity|].
           split; [same_requests
                  | discriminate].
      * eexists _, _. split; [reflexivity|]. simpl.
        split; [reflexivity|]. split; [reflexivity|].
        split; [same_requests
               | discriminate].
    + eexists _, _. split; [reflexivity|]. simpl.
      split; [reflexivity|]. split; [reflexivity|].
      split; [same_requests | discriminate].
  - eexists _, _. split; [reflexivity|]. simpl.
    split; [reflexivity|]. split; [reflexivity|].
    split; [same_requests | discriminate].
Qed.

(** X13: the rebuild routine never throws and changes neither the
    deletion flag nor the status of the workflow.  It requests the task
    listing and then at most one thing more: the run of the first listed
    task of type [repository.apt.rebuild.metadata], and only if the
    listing was answered with status 200; it returns [true] only if that
    run was answered with status 204. *)
Theorem X13_rebuild_is_best_effort (w : World) (config : Config) (st : State) :
  let listing := Get (tasks_url config) in
  let answer := server w (log st) listing in
  exists b st',
    runRebuildAptMetadata w config st = (Ret b, st') /\
    core st' = core st /\
    hasDeletedComponent st' = hasDeletedComponent st /\
    requests st' = (requests st ++ listing :: rebuild_run_request config answer)%list /\
    List.length (rebuild_run_request config answer) <= 1 /\
    (b = true ->
     exists aptTask,
       rebuild_run_request config answer
       = [Post (task_run_url config (item_id aptTask)) EmptyObject] /\
       accepted (server w (log st ++ [(listing, answer)])
                   (Post (task_run_url config (item_id aptTask)) EmptyObject))
       = true).
Proof.
  intros listing answer.
  destruct (runRebuildAptMetadata_trace w config st) as (b & st' & E & C & F & R & T).
  exists b, st'. split; [exact E|]. split; [exact C|]. split; [exact F|].
  split; [exact R|]. split; [|exact T].
  clear. subst answer listing. unfold rebuild_run_request.
  destruct (server w (log st) (Get (tasks_url config))) as [p|e]; simpl; [|lia].
  destruct (Z.eqb (status p) 200); simpl; [|lia].
  destruct (data_items p) as [tasks|]; simpl; [|lia].
  destruct (find is_apt_rebuild tasks); simpl; lia.
Qed.

(* ------------------------------------------------------------------ *)
(** ** More on the run as a whole *)

(** X14: when one of the five inputs is missing, the run issues no request
    at all and reports a failure. *)
Theorem X14_missing_input (fuel : nat) (w : World) (key e : string) :
  In key input_keys ->
  getInput w key = Failure e ->
  exists e',
    run fuel w initial = (Ret tt, add_core initial (SetFailed e')) /\
    requests (add_core initial (SetFailed e')) = [] /\
    reported_failure (add_core initial (SetFailed e')) = true /\
    reported_success (add_core initial (SetFailed e')) = false.
Proof.
  intros HK HF.
  assert (early : forall e', run fuel w initial
                             = (Ret tt, add_core initial (SetFailed e')) ->
            exists e', run fuel w initial
                       = (Ret tt, add_core initial (SetFailed e')) /\
              requests (add_core initial (SetFailed e')) = [] /\
              reported_failure (add_core initial (SetFailed e')) = true /\
              reported_success (add_core initial (SetFailed e')) = false).
  { intros e' E. exists e'. split; [exact E|]. repeat split. }
  destruct (getInput w "repository") as [repository|e1] eqn:I1;
    [|apply (early e1); unfold run, try_catch, bind, await; rewrite I1; reflexivity].
  destruct (getInput w "path") as [uploadPath|e2] eqn:I2;
    [|apply (early e2); unfold run, try_catch, bind, await; rewrite I1, I2;
      reflexivity].
  destruct (getInput w "nexus_url") as [nexusUrl|e3] eqn:I3;
    [|apply (early e3); unfold run, try_catch, bind, await; rewrite I1, I2, I3;
      reflexivity].
  destruct (getInput w "nexus_user") as [nexusUser|e4] eqn:I4;
    [|apply (early e4); unfold run, try_catch, bind, await;
      rewrite I1, I2, I3, I4; reflexivity].
  destruct (getInput w "nexus_password") as [nexusPassword|e5] eqn:I5;
    [|apply (early e5); unfold run, try_catch, bind, await;
      rewrite I1, I2, I3, I4, I5; reflexivity].
  exfalso. simpl in HK.
  destruct HK as [<- | [<- | [<- | [<- | [<- | []]]]]]; congruence.
Qed.

Lemma X14_witness :
  In "nexus_url" input_keys /\
  getInput Example.no_url_world "nexus_url"
  = Failure "Input required and not supplied: nexus_url" /\
  exists e',
    run 3 Example.no_url_world initial = (Ret tt, add_core initial (SetFailed e')) /\
    requests (add_core initial (SetFailed e')) = [].
Proof.
  split; [simpl; auto|]. split; [reflexivity|].
  destruct (X14_missing_input 3 Example.no_url_world "nexus_url" _
              (or_intror (or_intror (or_introl eq_refl))) eq_refl)
    as (e' & E & R & _).
  exists e'. split; [exact E | exact R].
Defined.

(** X15: once the listing has returned, a target that cannot be examined,
    a target that is neither a file nor a directory, and a directory that
    cannot be read each end the run with a failure, without any request
    beyond the listing. *)
Theorem X15_invalid_target (fuel : nat) (w : World)
  (repository uploadPath nexusUrl nexusUser nexusPassword : string)
  (components : list Component) (st1 : State) :
  let config := config_of w nexusUrl nexusUser nexusPassword in
  inputs_are w repository uploadPath nexusUrl nexusUser nexusPassword ->
  getComponents fuel w config repository initial = (Ret components, st1) ->
  (forall e, stat w uploadPath = Failure e ->
     run fuel w initial = (Ret tt, add_core st1 (SetFailed e))) /\
  (stat w uploadPath = Success IsOther ->
     run fuel w initial =
       (Ret tt, add_core st1 (SetFailed (not_file_or_directory_message uploadPath)))) /\
  (forall e, stat w uploadPath = Success IsDirectory ->
     readdir w uploadPath = Failure e ->
     run fuel w initial = (Ret tt, add_core st1 (SetFailed e))) /\
  (forall c, requests (add_core st1 c) = requests st1).
Proof.
  intros config HI E1.
  split; [|split; [|split]].
  - intros e HS. rewrite (run_phases fuel initial HI). fold config. rewrite E1.
    unfold reconcile_target, bind, await. rewrite HS. reflexivity.
  - intros HS. rewrite (run_phases fuel initial HI). fold config. rewrite E1.
    unfold reconcile_target, bind, await. rewrite HS. reflexivity.
  - intros e HS HD. rewrite (run_phases fuel initial HI). fold config. rewrite E1.
    unfold reconcile_target, bind, await. rewrite HS. simpl. rewrite HD. reflexivity.
  - reflexivity.
Qed.

Lemma X15_witness :
  let w := Example.missing_target_world in
  inputs_are w "apt-hosted" "nowhere" "http://nexus" "admin" "admin123" /\
  stat w "nowhere" = Failure "ENOENT: no such file or directory 'nowhere'" /\
  exists st',
    run 1 w initial = (Ret tt, st') /\
    core st' = [SetFailed "ENOENT: no such file or directory 'nowhere'"] /\
    requests st' =
      [Get "http://nexus/service/rest/v1/components?repository=apt-hosted"].
Proof.
  intros w.
  assert (HI : inputs_are w "apt-hosted" "nowhere" "http://nexus" "admin" "admin123")
    by (repeat split).
  split; [exact HI|]. split; [reflexivity|].
  eexists. split.
  - exact (proj1 (X15_invalid_target 1 w "apt-hosted" "nowhere" "http://nexus"
                    "admin" "admin123" _ _ HI eq_refl) _ eq_refl).
  - split; reflexivity.
Defined.

(** X16: a directory without any [.deb] entry is not an error: once the
    listing has returned, the run reports success at once, without any
    DELETE, upload or task call. *)
Theorem X16_directory_without_packages (fuel : nat) (w : World)
  (repository uploadPath nexusUrl nexusUser nexusPassword : string)
  (components : list Component) (st1 : State) (files : list string) :
  let config := config_of w nexusUrl nexusUser nexusPassword in
  inputs_are w repository uploadPath nexusUrl nexusUser nexusPassword ->
  getComponents fuel w config repository initial = (Ret components, st1) ->
  stat w uploadPath = Success IsDirectory ->
  readdir w uploadPath = Success files ->
  filter is_deb files = [] ->
  run fuel w initial = (Ret tt, add_core st1 (SetOutput "result" "上传成功")) /\
  requests (add_core st1 (SetOutput "result" "上传成功")) = requests st1 /\
  Forall (fun r => is_listing_request config repository r = true) (requests st1).
Proof.
  intros config HI E1 HS HD HE.
  destruct (getComponents_grows w config repository fuel initial)
    as (out1 & st1' & l1 & E1' & G1 & _ & F1 & Q1).
  rewrite E1 in E1'. injection E1' as <- <-.
  split; [|split; [reflexivity|]].
  - rewrite (run_phases fuel initial HI). fold config. rewrite E1.
    unfold reconcile_target, bind, await. rewrite HS. simpl. rewrite HD. simpl.
    rewrite HE. simpl. unfold conclude, bind, get_hasDeletedComponent.
    rewrite F1. reflexivity.
  - rewrite (grows_requests G1). exact Q1.
Qed.

Lemma X16_witness :
  let w := Example.empty_directory_world in
  inputs_are w "apt-hosted" "dist" "http://nexus" "admin" "admin123" /\
  readdir w "dist" = Success ["notes.txt"; "sub"] /\
  filter is_deb ["notes.txt"; "sub"] = [] /\
  exists st',
    run 1 w initial = (Ret tt, st') /\
    core st' = [SetOutput "result" "上传成功"] /\
    requests st' =
      [Get "http://nexus/service/rest/v1/components?repository=apt-hosted"].
Proof.
  intros w.
  assert (HI : inputs_are w "apt-hosted" "dist" "http://nexus" "admin" "admin123")
    by (repeat split).
  split; [exact HI|]. split; [reflexivity|]. split; [reflexivity|].
  eexists. split.
  - exact (proj1 (X16_directory_without_packages 1 w "apt-hosted" "dist"
                    "http://nexus" "admin" "admin123" _ _ ["notes.txt"; "sub"]
                    HI eq_refl eq_refl eq_refl eq_refl)).
  - split; reflexivity.
Defined.

Lemma reconcile_target_mutations (w : World) (config : Config)
  (repository uploadPath : string) (components : list Component) (st : State) :
  exists out st' l,
    reconcile_target w config repository uploadPath components st = (out, st') /\
    grows w st l st' /\
    Forall (fun r => is_mutation r = true) (map fst l).
Proof.
  assert (none : forall (out : Outcome bool) st', grows w st [] st' ->
            exists out0 st0 l,
              (out, st') = (out0, st0) /\ grows w st l st0 /\
              Forall (fun r => is_mutation r = true) (map fst l)).
  { intros out st' G. exists out, st', []. split; [reflexivity|].
    split; [exact G | constructor]. }
  unfold reconcile_target, bind, await.
  destruct (stat w uploadPath) as [[| |]|e]; simpl.
  - destruct (is_deb uploadPath); simpl.
    + destruct (processSingleFile_grows w config repository uploadPath components st)
        as (out1 & st1 & l1 & E1 & G1 & _ & R1 & _).
      rewrite E1.
      assert (Q : Forall (fun r => is_mutation r = true) (map fst l1))
        by (rewrite R1; apply file_requests_mutations).
      destruct out1 as [[]|e|]; simpl; eexists _, st1, l1;
        (split; [reflexivity|]); (split; [exact G1 | exact Q]).
    + apply none. apply grows_add_core. apply grows_refl.
  - destruct (readdir w uploadPath) as [files|e]; simpl.
    + destruct (processDebFiles_trace w config repository uploadPath components
                  (filter is_deb files) st) as (out1 & st1 & l1 & E1 & G1 & _ & R1 & _).
      rewrite E1.
      assert (Q : Forall (fun r => is_mutation r = true) (map fst l1)).
      { rewrite R1. apply Forall_forall. intros r H. apply in_flat_map in H.
        destruct H as (file & _ & H).
        exact (proj1 (Forall_forall _ _)
                 (file_requests_mutations w config repository components
                    (entry_path w uploadPath file)) r H). }
      destruct out1 as [[]|e|]; simpl; eexists _, st1, l1;
        (split; [reflexivity|]); (split; [exact G1 | exact Q]).
    + apply none. apply grows_refl.
  - apply none. apply grows_add_core. apply grows_refl.
  - apply none. apply grows_refl.
Qed.

Lemma conclude_bounded (w : World) (config : Config) (completed : bool) (st : State) :
  exists out st' l,
    conclude w config completed st = (out, st') /\
    grows w st l st' /\
    Forall (fun r => is_task_request config r = true) (map fst l) /\
    List.length l <= 2.
Proof.
  destruct (conclude_spec w config completed st)
    as (st' & l & E & G & T & _ & OFF & ON).
  exists (Ret tt), st', l. split; [exact E|]. split; [exact G|]. split; [exact T|].
  destruct completed.
  - destruct (ON eq_refl) as (_ & _ & DOWN).
    destruct (hasDeletedComponent st) eqn:EF;
      [|rewrite (DOWN eq_refl); simpl; lia].
    unfold conclude, bind, get_hasDeletedComponent in E. rewrite EF in E.
    destruct (runRebuildAptMetadata_trace w config st) as (b & st1 & E1 & _ & _ & R1 & _).
    rewrite E1 in E. simpl in E. injection E as <-.
    assert (R : requests st1 = (requests st ++ map fst l)%list).
    { destruct G as (L & _). unfold requests. simpl in L. rewrite L, map_app.
      reflexivity. }
    rewrite R in R1. apply app_inv_head in R1.
    apply (f_equal (@List.length Request)) in R1. rewrite length_map in R1.
    rewrite R1. simpl.
    assert (B : List.length (rebuild_run_request config
                               (server w (log st) (Get (tasks_url config)))) <= 1).
    { unfold rebuild_run_request.
      destruct (server w (log st) (Get (tasks_url config))) as [p|e]; simpl; [|lia].
      destruct (Z.eqb (status p) 200); simpl; [|lia].
      destruct (data_items p) as [tasks|]; simpl; [|lia].
      destruct (find is_apt_rebuild tasks); simpl; lia. }
    lia.
  - destruct (OFF eq_refl) as [-> _]. simpl. lia.
Qed.

(** X17: every run asks in three stages that never interleave: first the
    page requests of the listing, then DELETEs and uploads, then the task
    endpoints, these at most twice.  The inventory is therefore read once,
    before anything is changed, and never read again. *)
Theorem X17_requests_come_in_three_stages (fuel : nat) (w : World)
  (repository uploadPath nexusUrl nexusUser nexusPassword : string) :
  let config := config_of w nexusUrl nexusUser nexusPassword in
  inputs_are w repository uploadPath nexusUrl nexusUser nexusPassword ->
  exists listing mutations tasks,
    requests (snd (run fuel w initial)) = (listing ++ mutations ++ tasks)%list /\
    Forall (fun r => is_listing_request config repository r = true) listing /\
    Forall (fun r => is_mutation r = true) mutations /\
    Forall (fun r => is_task_request config r = true) tasks /\
    List.length tasks <= 2.
Proof.
  intros config HI. rewrite (run_phases fuel initial HI). fold config.
  destruct (getComponents_grows w config repository fuel initial)
    as (out1 & st1 & l1 & E1 & G1 & _ & _ & Q1).
  rewrite E1.
  assert (R1 : requests st1 = map fst l1) by (rewrite (grows_requests G1); reflexivity).
  assert (stop1 : forall c,
            exists listing mutations tasks,
              requests (add_core st1 c) = (listing ++ mutations ++ tasks)%list /\
              Forall (fun r => is_listing_request config repository r = true) listing /\
              Forall (fun r => is_mutation r = true) mutations /\
              Forall (fun r => is_task_request config r = true) tasks /\
              List.length tasks <= 2).
  { intros c. exists (map fst l1), [], []. rewrite app_nil_r.
    split; [exact R1|]. split; [exact Q1|]. repeat split; try constructor.
    simpl. lia. }
  destruct out1 as [components|e|]; [|apply stop1 | apply (stop1 (SetFailed ""))].
  destruct (reconcile_target_mutations w config repository uploadPath components st1)
    as (out2 & st2 & l2 & E2 & G2 & Q2).
  rewrite E2.
  assert (R2 : requests st2 = (map fst l1 ++ map fst l2)%list)
    by (rewrite (grows_requests G2), R1; reflexivity).
  assert (stop2 : forall c,
            exists listing mutations tasks,
              requests (add_core st2 c) = (listing ++ mutations ++ tasks)%list /\
              Forall (fun r => is_listing_request config repository r = true) listing /\
              Forall (fun r => is_mutation r = true) mutations /\
              Forall (fun r => is_task_request config r = true) tasks /\
              List.length tasks <= 2).
  { intros c. exists (map fst l1), (map fst l2), []. rewrite app_nil_r.
    split; [exact R2|]. split; [exact Q1|]. split; [exact Q2|].
    split; [constructor | simpl; lia]. }
  destruct out2 as [completed|e|]; [|apply stop2 | apply (stop2 (SetFailed ""))].
  destruct (conclude_bounded w config completed st2)
    as (out3 & st3 & l3 & E3 & G3 & T3 & B3).
  rewrite E3.
  assert (R3 : forall c, requests (add_core st3 c)
                         = (map fst l1 ++ map fst l2 ++ map fst l3)%list).
  { intros c. change (requests (add_core st3 c)) with (requests st3).
    rewrite (grows_requests G3), R2, app_assoc. reflexivity. }
  assert (B : List.length (map fst l3) <= 2) by (rewrite length_map; exact B3).
  destruct out3 as [[]|e|]; simpl;
    exists (map fst l1), (map fst l2), (map fst l3);
    (split; [exact (R3 (SetFailed "")) || exact (R3 (SetFailed e))|]); auto.
Qed.

Lemma X17_witness :
  let w := Example.busy_world in
  inputs_are w "apt-hosted" "dist" "http://nexus" "admin" "admin123" /\
  requests (snd (run 1 w initial)) =
    ([Get "http://nexus/service/rest/v1/components?repository=apt-hosted"] ++
     [Delete "http://nexus/service/rest/v1/components/id2";
      Post "http://nexus/service/rest/v1/components?repository=apt-hosted"
        (FormData "foo_1.0.0_amd64.deb" Example.abc123)] ++
     [Get "http://nexus/service/rest/v1/tasks";
      Post "http://nexus/service/rest/v1/tasks/task-7/run" EmptyObject])%list /\
  core (snd (run 1 w initial)) = [SetOutput "result" "上传成功"] /\
  exists listing mutations tasks,
    requests (snd (run 1 w initial)) = (listing ++ mutations ++ tasks)%list /\
    List.length tasks <= 2.
Proof.
  intros w.
  assert (HI : inputs_are w "apt-hosted" "dist" "http://nexus" "admin" "admin123")
    by (repeat split).
  split; [exact HI|]. split; [reflexivity|]. split; [reflexivity|].
  destruct (X17_requests_come_in_three_stages 1 w "apt-hosted" "dist" "http://nexus"
              "admin" "admin123" HI)
    as (listing & mutations & tasks & R & _ & _ & _ & B).
  exists listing, mutations, tasks. split; [exact R | exact B].
Defined.

(** X18: the snapshot is not refreshed between entries: a record that is a
    stale match for two entries of the directory is asked to be deleted
    twice, once while each of them is reconciled, although the first
    DELETE may already have removed it. *)
Theorem X18_snapshot_is_not_refreshed (w : World) (config : Config)
  (repository uploadPath : string) (components : list Component)
  (first second : string) (st : State) (data1 data2 : list Byte.byte)
  (comp : Component) :
  let actual1 := getActualFilePath w (entry_path w uploadPath first) in
  let actual2 := getActualFilePath w (entry_path w uploadPath second) in
  readFile w actual1 = Success data1 ->
  readFile w actual2 = Success data2 ->
  In comp components ->
  matches comp (getDebInfoWithDpkg w actual1) = true ->
  sha256 comp <> generateSHA256 w data1 ->
  matches comp (getDebInfoWithDpkg w actual2) = true ->
  sha256 comp <> generateSHA256 w data2 ->
  exists st' issued1 issued2,
    processDebFiles w config repository uploadPath components [first; second] st
    = (Ret tt, st') /\
    requests st' = (requests st ++ issued1 ++ issued2)%list /\
    In (Delete (component_url config (id comp))) issued1 /\
    In (Delete (component_url config (id comp))) issued2.
Proof.
  intros actual1 actual2 HR1 HR2 HI HM1 HS1 HM2 HS2.
  cbn [processDebFiles]. fold (entry_path w uploadPath first).
  fold (entry_path w uploadPath second). unfold bind.
  destruct (processSingleFile_issued w config repository
              (entry_path w uploadPath first) components st HR1) as (st1 & E1 & R1).
  rewrite E1.
  destruct (processSingleFile_issued w config repository
              (entry_path w uploadPath second) components st1 HR2) as (st2 & E2 & R2).
  rewrite E2. simpl.
  exists st2, (reconcile_requests w config repository components actual1 data1),
    (reconcile_requests w config repository components actual2 data2).
  split; [reflexivity|]. split; [rewrite R2, R1, app_assoc; reflexivity|].
  split; unfold reconcile_requests; apply in_stale_deleted; assumption.
Qed.

Lemma X18_witness :
  let w := Example.two_versions_world in
  exists st',
    processDebFiles w Example.config "apt-hosted" "dist" [Example.foo_any_version]
      ["foo_1.0.0_amd64.deb"; "foo_2.0.0_amd64.deb"] initial = (Ret tt, st') /\
    requests st' =
      [Delete "http://nexus/service/rest/v1/components/id9";
       Post "http://nexus/service/rest/v1/components?repository=apt-hosted"
         (FormData "foo_1.0.0_amd64.deb" Example.abc123);
       Delete "http://nexus/service/rest/v1/components/id9";
       Post "http://nexus/service/rest/v1/components?repository=apt-hosted"
         (FormData "foo_2.0.0_amd64.deb" Example.xyz789)].
Proof.
  intros w.
  destruct (X18_snapshot_is_not_refreshed w Example.config "apt-hosted" "dist"
              [Example.foo_any_version] "foo_1.0.0_amd64.deb" "foo_2.0.0_amd64.deb"
              initial Example.abc123 Example.xyz789 Example.foo_any_version
              eq_refl eq_refl (or_introl eq_refl) eq_refl)
    as (st' & i1 & i2 & E & _ & _ & _);
    [intros H; vm_compute in H; discriminate H | reflexivity
    | intros H; vm_compute in H; discriminate H |].
  exists st'. split; [exact E|].
  replace st' with
    (snd (processDebFiles w Example.config "apt-hosted" "dist"
            [Example.foo_any_version]
            ["foo_1.0.0_amd64.deb"; "foo_2.0.0_amd64.deb"] initial))
    by (rewrite E; reflexivity).
  reflexivity.
Defined.

(** X19: a single-file target with the [.deb] extension is reconciled like
    a directory entry: if it can be read, its requests follow the listing
    and the run reports success; if it cannot, the run fails with the read
    error and issues nothing beyond the listing. *)
Theorem X19_single_file_target (fuel : nat) (w : World)
  (repository uploadPath nexusUrl nexusUser nexusPassword : string)
  (components : list Component) (st1 : State) :
  let config := config_of w nexusUrl nexusUser nexusPassword in
  let actualFilePath := getActualFilePath w uploadPath in
  inputs_are w repository uploadPath nexusUrl nexusUser nexusPassword ->
  getComponents fuel w config repository initial = (Ret components, st1) ->
  stat w uploadPath = Success IsFile ->
  is_deb uploadPath = true ->
  (forall fileData,
     readFile w actualFilePath = Success fileData ->
     exists st' tail,
       run fuel w initial = (Ret tt, st') /\
       core st' = [SetOutput "result" "上传成功"] /\
       requests st' =
         (requests st1 ++
          reconcile_requests w config repository components actualFilePath fileData ++
          tail)%list /\
       Forall (fun r => is_task_request config r = true) tail) /\
  (forall e,
     readFile w actualFilePath = Failure e ->
     run fuel w initial = (Ret tt, add_core st1 (SetFailed e))).
Proof.
  intros config actualFilePath HI E1 HS HD.
  destruct (getComponents_grows w config repository fuel initial)
    as (out1 & st1' & l1 & E1' & _ & C1 & _).
  rewrite E1 in E1'. injection E1' as <- <-.
  split.
  - intros fileData HR.
    rewrite (run_phases fuel initial HI). fold config. rewrite E1.
    unfold reconcile_target, bind, await. rewrite HS. simpl. rewrite HD.
    destruct (processSingleFile_issued w config repository uploadPath components
                st1 HR) as (st2 & E2 & R2).
    destruct (processSingleFile_readable w config repository uploadPath components
                st1 HR) as (st2' & l2 & E2' & _ & C2 & _).
    rewrite E2 in E2'. injection E2' as <-.
    rewrite E2. simpl.
    destruct (conclude_spec w config true st2)
      as (st3 & l3 & E3 & G3 & T3 & _ & _ & K3).
    destruct (K3 eq_refl) as (C3 & _). rewrite E3.
    exists st3, (map fst l3). split; [reflexivity|].
    split; [rewrite C3, C2, C1; reflexivity|].
    split; [|exact T3].
    rewrite (grows_requests G3), R2, app_assoc. reflexivity.
  - intros e HR.
    rewrite (run_phases fuel initial HI). fold config. rewrite E1.
    unfold reconcile_target, bind, await. rewrite HS. simpl. rewrite HD.
    rewrite (processSingleFile_unreadable w config repository uploadPath
               components st1 HR).
    reflexivity.
Qed.

Lemma X19_witness :
  let w := Example.foo_world in
  inputs_are w "apt-hosted" "foo_1.0.0_amd64.deb" "http://nexus" "admin" "admin123" /\
  stat w "foo_1.0.0_amd64.deb" = Success IsFile /\
  is_deb "foo_1.0.0_amd64.deb" = true /\
  exists st',
    run 1 w initial = (Ret tt, st') /\
    core st' = [SetOutput "result" "上传成功"].
Proof.
  intros w.
  assert (HI : inputs_are w "apt-hosted" "foo_1.0.0_amd64.deb" "http://nexus"
                 "admin" "admin123") by (repeat split).
  split; [exact HI|]. split; [reflexivity|]. split; [reflexivity|].
  destruct (proj1 (X19_single_file_target 1 w "apt-hosted" "foo_1.0.0_amd64.deb"
                     "http://nexus" "admin" "admin123" _ _ HI eq_refl eq_refl
                     eq_refl) Example.abc123 eq_refl)
    as (st' & tail & E & C & _).
  exists st'. split; [exact E | exact C].
Defined.
